(** * PicoGL.js textures: [src/texture.js]

    A shallow embedding of the [Texture] object of PicoGL.js and of the
    WebGL 2 context it drives, and the properties of its constructor and
    of its methods [resize], [data], [delete] and [bind].

    The object is a thin wrapper: every method is a short sequence of
    calls into the context.  The context is modelled by what such a
    wrapper can observe of it, the log of the calls it received and the
    supply of object names ([createTexture], [createSampler]). *)

From stdpp Require Import base numbers option list gmap.

Local Open Scope Z_scope.

(** ** JavaScript values *)

(** The values that reach a texture: [undefined], [null], booleans and
    numbers.  The numbers a caller passes are sizes, unit indices and
    GL enumerants, all of them integers, so a number is a [Z]. *)
Inductive value :=
  | VUndefined
  | VNull
  | VBool (b : bool)
  | VNum (z : Z).

#[global] Instance value_eq_dec : EqDecision value.
Proof. solve_decision. Defined.

(** [a === b] and [a !== b]. *)
Definition strict_eq (a b : value) : bool := bool_decide (a = b).
Definition strict_neq (a b : value) : bool := negb (strict_eq a b).

(** ToBoolean: [undefined], [null], [false] and [0] are falsy. *)
Definition truthy (v : value) : bool :=
  match v with
  | VUndefined | VNull => false
  | VBool b => b
  | VNum z => negb (z =? 0)
  end.

(** [a || b], when [b] has no effect. *)
Definition or_else (a b : value) : value := if truthy a then a else b.

(** [v !== undefined ? v : d]. *)
Definition defined_or (v d : value) : value :=
  if strict_neq v VUndefined then v else d.

(** The results of the [Math] functions: besides the integers, [NaN] and
    [-Infinity], which [Math.log2] yields below [1]. *)
Inductive number :=
  | Int (z : Z)
  | NaN
  | NegInfinity.

#[global] Instance number_eq_dec : EqDecision number.
Proof. solve_decision. Defined.

Definition ToNumber (v : value) : number :=
  match v with
  | VUndefined => NaN
  | VNull => Int 0
  | VBool b => Int (if b then 1 else 0)
  | VNum z => Int z
  end.

(** [Math.max] on two numbers: [NaN] wins, [-Infinity] is neutral. *)
Definition Math_max (a b : number) : number :=
  match a, b with
  | NaN, _ | _, NaN => NaN
  | NegInfinity, x | x, NegInfinity => x
  | Int x, Int y => Int (Z.max x y)
  end.

(** [Math.floor(Math.log2(x))].  The logarithm of a positive integer is
    not an integer in general, so the two calls are taken together: on
    [x >= 1] the result is the integer logarithm, [Math.log2(0)] is
    [-Infinity], which [Math.floor] keeps, and below [0] and on [NaN]
    and [-Infinity] the logarithm is [NaN].

    [Math.log2] works on doubles.  Its result on [2^k] is [k], and just
    below [2^k] it is a double below [k] as long as the doubles around
    [k] are fine enough to tell [log2(2^k - 1)] from [k], which they are
    for every [k] up to 48.  From [2^49 - 1] on the logarithm of a
    number just below a power of two rounds to the next integer, and
    the integer logarithm is then one less than what the engine
    computes.  The properties of the level count are therefore stated
    for the sizes that storage can have ([is_size] below), far inside
    the range where the two agree. *)
Definition Math_floor_log2 (x : number) : number :=
  match x with
  | Int z => if 0 <? z then Int (Z.log2 z)
             else if z =? 0 then NegInfinity else NaN
  | NaN | NegInfinity => NaN
  end.

(** [x + 1]. *)
Definition plus_one (x : number) : number :=
  match x with
  | Int z => Int (z + 1)
  | NaN => NaN
  | NegInfinity => NegInfinity
  end.

(** ** The WebGL 2 context *)

(** The enumerants of [WebGL2RenderingContext] that the texture names. *)
Module gl.
Definition NONE : Z := 0.
Definition LEQUAL : Z := 0x0203.
Definition UNSIGNED_BYTE : Z := 0x1401.
Definition RGBA : Z := 0x1908.
Definition LINEAR : Z := 0x2601.
Definition LINEAR_MIPMAP_NEAREST : Z := 0x2701.
Definition LINEAR_MIPMAP_LINEAR : Z := 0x2703.
Definition TEXTURE_MAG_FILTER : Z := 0x2800.
Definition TEXTURE_MIN_FILTER : Z := 0x2801.
Definition TEXTURE_WRAP_S : Z := 0x2802.
Definition TEXTURE_WRAP_T : Z := 0x2803.
Definition REPEAT : Z := 0x2901.
Definition TEXTURE_WRAP_R : Z := 0x8072.
Definition TEXTURE_MIN_LOD : Z := 0x813A.
Definition TEXTURE_MAX_LOD : Z := 0x813B.
Definition TEXTURE_BASE_LEVEL : Z := 0x813C.
Definition TEXTURE_MAX_LEVEL : Z := 0x813D.
Definition TEXTURE0 : Z := 0x84C0.
Definition TEXTURE_COMPARE_MODE : Z := 0x884C.
Definition TEXTURE_COMPARE_FUNC : Z := 0x884D.
Definition UNPACK_FLIP_Y_WEBGL : Z := 0x9240.
(* used by the examples only *)
Definition NEAREST : Z := 0x2600.
Definition TEXTURE_2D : Z := 0x0DE1.
Definition TEXTURE_3D : Z := 0x806F.
Definition RGBA8 : Z := 0x8058.
End gl.

(** A [WebGLTexture] or [WebGLSampler] object, known by its name. *)
Inductive handle := WebGLObject (name : nat).

#[global] Instance handle_eq_dec : EqDecision handle.
Proof. solve_decision. Defined.

(** An image element or array buffer view handed to [data]: only its
    [width] and [height] properties are read ([undefined] on a buffer). *)
Record Image := { img_width : value; img_height : value }.

(** One call received by the context, with its arguments.  A texture or
    sampler argument is [None] for [null]. *)
Inductive glcall :=
  | CreateSampler
  | CreateTexture
  | SamplerParameteri (sampler : option handle) (pname : Z) (param : value)
  | SamplerParameterf (sampler : option handle) (pname : Z) (param : value)
  | DeleteTexture (texture : option handle)
  | DeleteSampler (sampler : option handle)
  | ActiveTexture (texture : Z)
  | BindTexture (target : value) (texture : option handle)
  | BindSampler (unit : Z) (sampler : option handle)
  | PixelStorei (pname : Z) (param : value)
  | TexParameteri (target : value) (pname : Z) (param : value)
  | TexStorage2D (target : value) (levels : number) (internalformat : value)
                 (width height : value)
  | TexStorage3D (target : value) (levels : number) (internalformat : value)
                 (width height depth : value)
  | TexSubImage2D (target : value) (level xoffset yoffset : Z)
                  (width height format type : value) (pixels : Image)
  | TexSubImage3D (target : value) (level xoffset yoffset zoffset : Z)
                  (width height depth format type : value) (pixels : Image)
  | GenerateMipmap (target : value).

(** The identity of a JavaScript object (what [this] denotes). *)
Definition objref := nat.

(** Modelled from the spec: the tracked state [appState] is built in
    [app.js], which is not among the sources.  All that is known of it
    is a record of the resource currently bound to each texture unit:
    a finite map from unit indices to textures. *)
Definition AppState : Type := gmap Z objref.

(** Everything shared between the textures of an application: the
    context [gl] (its supply of object names and the calls it received,
    oldest first) and the tracked state.  The fields [this.gl] and
    [this.appState] of every texture alias these two. *)
Record World := {
  fresh : nat;
  calls : list glcall;
  appState : AppState;
}.

(** The context logs a call. *)
Definition gl_call (c : glcall) (w : World) : World :=
  {| fresh := fresh w; calls := calls w ++ [c]; appState := appState w |}.

(** [gl.createTexture()] and [gl.createSampler()] return a new object on
    every call. *)
Definition gl_create (c : glcall) (w : World) : handle * World :=
  (WebGLObject (fresh w),
   {| fresh := S (fresh w); calls := calls w ++ [c]; appState := appState w |}).

Definition gl_createTexture : World → handle * World := gl_create CreateTexture.
Definition gl_createSampler : World → handle * World := gl_create CreateSampler.

(** The calls issued between two states of the world. *)
Definition emitted (w w' : World) : list glcall :=
  drop (length (calls w)) (calls w').

(** ** The texture object *)

(** The properties of a [Texture].  [self] is the identity of the object;
    [gl] and [appState] are references to the two shared objects of the
    [World] and are not repeated here.  [texture] and [sampler] are
    [None] when the property is [null]. *)
Module Texture.
Record t := {
  self : objref;
  binding : value;
  texture : option handle;
  width : value;
  height : value;
  depth : value;
  format : value;
  type : value;
  internalFormat : value;
  is3D : bool;
  sampler : option handle;
  flipY : value;
  baseLevel : value;
  maxLevel : value;
  generateMipmaps : bool;
}.

Definition set_texture (h : option handle) (this : t) : t :=
  {| self := self this; binding := binding this; texture := h;
     width := width this; height := height this; depth := depth this;
     format := format this; type := type this;
     internalFormat := internalFormat this; is3D := is3D this;
     sampler := sampler this; flipY := flipY this;
     baseLevel := baseLevel this; maxLevel := maxLevel this;
     generateMipmaps := generateMipmaps this |}.

Definition set_sampler (h : option handle) (this : t) : t :=
  {| self := self this; binding := binding this; texture := texture this;
     width := width this; height := height this; depth := depth this;
     format := format this; type := type this;
     internalFormat := internalFormat this; is3D := is3D this;
     sampler := h; flipY := flipY this;
     baseLevel := baseLevel this; maxLevel := maxLevel this;
     generateMipmaps := generateMipmaps this |}.

Definition set_size (w h d : value) (this : t) : t :=
  {| self := self this; binding := binding this; texture := texture this;
     width := w; height := h; depth := d;
     format := format this; type := type this;
     internalFormat := internalFormat this; is3D := is3D this;
     sampler := sampler this; flipY := flipY this;
     baseLevel := baseLevel this; maxLevel := maxLevel this;
     generateMipmaps := generateMipmaps this |}.
End Texture.

Abbreviation Texture := Texture.t.

(** ** Methods *)

(** [Texture.prototype.bind] (lines 190-196). *)
Definition bind (unit : Z) (this : Texture) (w : World) : Texture * World :=
  let w := gl_call (ActiveTexture (gl.TEXTURE0 + unit)) w in
  let w := gl_call (BindTexture (Texture.binding this) (Texture.texture this)) w in
  let w := gl_call (BindSampler unit (Texture.sampler this)) w in
  (this, w).

(** The level count that [resize] computes on lines 134-147, from the
    size it has just recorded. *)
Definition levels (this : Texture) : number :=
  if Texture.is3D this then
    if Texture.generateMipmaps this then
      plus_one (Math_floor_log2
        (Math_max (Math_max (ToNumber (Texture.width this))
                            (ToNumber (Texture.height this)))
                  (ToNumber (Texture.depth this))))
    else Int 1
  else
    if Texture.generateMipmaps this then
      plus_one (Math_floor_log2
        (Math_max (ToNumber (Texture.width this))
                  (ToNumber (Texture.height this))))
    else Int 1.

(** [Texture.prototype.resize] (lines 108-150). *)
Definition resize (width height depth : value) (this : Texture) (w : World)
  : Texture * World :=
  let depth := or_else depth (VNum 0) in
  if strict_eq width (Texture.width this)
     && strict_eq height (Texture.height this)
     && strict_eq depth (Texture.depth this)
  then (this, w)
  else
    let w := gl_call (DeleteTexture (Texture.texture this)) w in
    let '(h, w) := gl_createTexture w in
    let this := Texture.set_texture (Some h) this in
    let '(this, w) := bind 0 this w in
    let this := Texture.set_size width height depth this in
    let w := gl_call (PixelStorei gl.UNPACK_FLIP_Y_WEBGL (Texture.flipY this)) w in
    let w :=
      if strict_neq (Texture.baseLevel this) VNull
      then gl_call (TexParameteri (Texture.binding this) gl.TEXTURE_BASE_LEVEL
                                  (Texture.baseLevel this)) w
      else w in
    let w :=
      if strict_neq (Texture.maxLevel this) VNull
      then gl_call (TexParameteri (Texture.binding this) gl.TEXTURE_MAX_LEVEL
                                  (Texture.maxLevel this)) w
      else w in
    let w :=
      if Texture.is3D this
      then gl_call (TexStorage3D (Texture.binding this) (levels this)
                                 (Texture.internalFormat this)
                                 (Texture.width this) (Texture.height this)
                                 (Texture.depth this)) w
      else gl_call (TexStorage2D (Texture.binding this) (levels this)
                                 (Texture.internalFormat this)
                                 (Texture.width this) (Texture.height this)) w in
    (this, w).

(** [Texture.prototype.data] (lines 159-173); an absent argument is
    [None]. *)
Definition data (d : option Image) (this : Texture) (w : World)
  : Texture * World :=
  match d with
  | Some d =>
      let w :=
        if Texture.is3D this
        then gl_call (TexSubImage3D (Texture.binding this) 0 0 0 0
                        (Texture.width this) (Texture.height this)
                        (Texture.depth this)
                        (Texture.format this) (Texture.type this) d) w
        else gl_call (TexSubImage2D (Texture.binding this) 0 0 0
                        (Texture.width this) (Texture.height this)
                        (Texture.format this) (Texture.type this) d) w in
      let w :=
        if Texture.generateMipmaps this
        then gl_call (GenerateMipmap (Texture.binding this)) w
        else w in
      (this, w)
  | None => (this, w)
  end.

(** [Texture.prototype.delete] (lines 180-187). *)
Definition delete (this : Texture) (w : World) : Texture * World :=
  match Texture.texture this with
  | Some _ =>
      let w := gl_call (DeleteTexture (Texture.texture this)) w in
      let w := gl_call (DeleteSampler (Texture.sampler this)) w in
      let this := Texture.set_texture None this in
      let this := Texture.set_sampler None this in
      (this, w)
  | None => (this, w)
  end.

(** ** The constructor *)

(** The options bag; an option that is not given reads [undefined]. *)
Module Options.
Record t := {
  format : value;
  type : value;
  internalFormat : value;
  minFilter : value;
  magFilter : value;
  wrapS : value;
  wrapT : value;
  wrapR : value;
  compareMode : value;
  compareFunc : value;
  minLOD : value;
  maxLOD : value;
  flipY : value;
  baseLevel : value;
  maxLevel : value;
  generateMipmaps : value;
}.
End Options.

(** Modelled from the spec: [CONSTANTS.DUMMY_OBJECT] of [constants.js],
    which is not among the sources.  It stands for the configuration bag
    when none is passed, so that every recognised option takes its
    stated default: no option is given in it. *)
Definition DUMMY_OBJECT : Options.t :=
  {| Options.format := VUndefined; Options.type := VUndefined;
     Options.internalFormat := VUndefined; Options.minFilter := VUndefined;
     Options.magFilter := VUndefined; Options.wrapS := VUndefined;
     Options.wrapT := VUndefined; Options.wrapR := VUndefined;
     Options.compareMode := VUndefined; Options.compareFunc := VUndefined;
     Options.minLOD := VUndefined; Options.maxLOD := VUndefined;
     Options.flipY := VUndefined; Options.baseLevel := VUndefined;
     Options.maxLevel := VUndefined; Options.generateMipmaps := VUndefined |}.

(** A call either returns or throws. *)
Inductive error := TypeError.

Inductive completion (A : Type) :=
  | Normal (a : A)
  | Throw (e : error).
Arguments Normal {A} a.
Arguments Throw {A} e.

#[global] Instance completion_ret : MRet completion := @Normal.
#[global] Instance completion_bind : MBind completion :=
  λ A B f m, match m with Normal a => f a | Throw e => Throw e end.

(** [o.p] where [o] may be absent: reading a property of [undefined] or
    [null] throws a [TypeError]. *)
Definition get_prop {O : Type} (o : option O) (p : O → value) : completion value :=
  match o with
  | Some o => Normal (p o)
  | None => Throw TypeError
  end.

(** [a || o.p]: the property is read only when [a] is falsy. *)
Definition or_prop {O : Type} (a : value) (o : option O) (p : O → value)
  : completion value :=
  if truthy a then Normal a else get_prop o p.

(** The mipmap flag computed on lines 92-93. *)
Definition mipmap_filter (minFilter : value) : bool :=
  strict_eq minFilter (VNum gl.LINEAR_MIPMAP_NEAREST)
  || strict_eq minFilter (VNum gl.LINEAR_MIPMAP_LINEAR).

(** The minification filter the constructor resolves. *)
Definition resolved_minFilter (options : option Options.t) : value :=
  defined_or (Options.minFilter (default DUMMY_OBJECT options))
             (VNum gl.LINEAR_MIPMAP_NEAREST).

(** The constructor in parts, for the properties below: what it resolves
    from the options, the calls that set up the sampler (lines 63-86),
    the object as it stands before [resize] is called (lines 50-93), and
    the three closing calls (lines 95-97). *)
Definition resolved_type (options : option Options.t) : value :=
  defined_or (Options.type (default DUMMY_OBJECT options)) (VNum gl.UNSIGNED_BYTE).

Definition resolved_format (options : option Options.t) : value :=
  defined_or (Options.format (default DUMMY_OBJECT options)) (VNum gl.RGBA).

Definition sampler_setup (o : Options.t) (sampler : option handle) : list glcall :=
  [CreateSampler;
   SamplerParameteri sampler gl.TEXTURE_MIN_FILTER
     (defined_or (Options.minFilter o) (VNum gl.LINEAR_MIPMAP_NEAREST));
   SamplerParameteri sampler gl.TEXTURE_MAG_FILTER
     (defined_or (Options.magFilter o) (VNum gl.LINEAR));
   SamplerParameteri sampler gl.TEXTURE_WRAP_S
     (defined_or (Options.wrapS o) (VNum gl.REPEAT));
   SamplerParameteri sampler gl.TEXTURE_WRAP_T
     (defined_or (Options.wrapT o) (VNum gl.REPEAT));
   SamplerParameteri sampler gl.TEXTURE_WRAP_R
     (defined_or (Options.wrapR o) (VNum gl.REPEAT));
   SamplerParameteri sampler gl.TEXTURE_COMPARE_FUNC
     (defined_or (Options.compareFunc o) (VNum gl.LEQUAL));
   SamplerParameteri sampler gl.TEXTURE_COMPARE_MODE
     (defined_or (Options.compareMode o) (VNum gl.NONE))]
  ++ (if strict_neq (defined_or (Options.minLOD o) VNull) VNull
      then [SamplerParameterf sampler gl.TEXTURE_MIN_LOD
              (defined_or (Options.minLOD o) VNull)] else [])
  ++ (if strict_neq (defined_or (Options.maxLOD o) VNull) VNull
      then [SamplerParameterf sampler gl.TEXTURE_MAX_LOD
              (defined_or (Options.maxLOD o) VNull)] else []).

Definition initial (self : objref) (binding internalFormat : value)
    (is3D : bool) (options : option Options.t) (sampler : option handle)
  : Texture :=
  let o := default DUMMY_OBJECT options in
  {| Texture.self := self;
     Texture.binding := binding;
     Texture.texture := None;
     Texture.width := VNum (-1);
     Texture.height := VNum (-1);
     Texture.depth := VNum (-1);
     Texture.format := resolved_format options;
     Texture.type := resolved_type options;
     Texture.internalFormat := internalFormat;
     Texture.is3D := is3D;
     Texture.sampler := sampler;
     Texture.flipY := defined_or (Options.flipY o) (VBool false);
     Texture.baseLevel := defined_or (Options.baseLevel o) VNull;
     Texture.maxLevel := defined_or (Options.maxLevel o) VNull;
     Texture.generateMipmaps :=
       strict_neq (Options.generateMipmaps o) (VBool false)
       && mipmap_filter (resolved_minFilter options) |}.

Definition finish (image : option Image) (width height depth : value)
    (this : Texture) (w : World) : Texture * World :=
  let '(this, w) := resize width height depth this w in
  let '(this, w) := data image this w in
  bind 0 this w.

(** The world once the sampler is set up. *)
Definition with_sampler (options : option Options.t) (w : World) : World :=
  {| fresh := S (fresh w);
     calls := calls w ++ sampler_setup (default DUMMY_OBJECT options)
                                       (Some (WebGLObject (fresh w)));
     appState := appState w |}.

Section Constructor.

(** The table of [texture-format-defaults.js], which is not among the
    sources: [TEXTURE_FORMAT_DEFAULTS[type]] is a row or [undefined],
    and a row maps a format to an internal format or [undefined]. *)
Variable TEXTURE_FORMAT_DEFAULTS : value → option (value → value).

(** The internal format the constructor resolves (line 58). *)
Definition resolve_internalFormat (options : option Options.t)
  : completion value :=
  if strict_neq (Options.internalFormat (default DUMMY_OBJECT options)) VUndefined
  then Normal (Options.internalFormat (default DUMMY_OBJECT options))
  else get_prop (TEXTURE_FORMAT_DEFAULTS (resolved_type options))
                (λ row, row (resolved_format options)).

(** [function Texture(gl, appState, binding, image, width, height,
    depth, is3D, options)], called with [new]: [self] is the identity of
    the new object, [gl] and [appState] are in the world.  An absent
    [image] or [options] is [None]. *)
Definition new_Texture (self : objref) (binding : value) (image : option Image)
    (width height depth : value) (is3D : bool) (options : option Options.t)
    (w : World) : completion (Texture * World) :=
  width ← or_prop width image img_width;
  height ← or_prop height image img_height;
  let options := default DUMMY_OBJECT options in
  let format := defined_or (Options.format options) (VNum gl.RGBA) in
  let type := defined_or (Options.type options) (VNum gl.UNSIGNED_BYTE) in
  internalFormat ←
    (if strict_neq (Options.internalFormat options) VUndefined
     then Normal (Options.internalFormat options)
     else get_prop (TEXTURE_FORMAT_DEFAULTS type) (λ row, row format));
  let minFilter := defined_or (Options.minFilter options) (VNum gl.LINEAR_MIPMAP_NEAREST) in
  let magFilter := defined_or (Options.magFilter options) (VNum gl.LINEAR) in
  let wrapS := defined_or (Options.wrapS options) (VNum gl.REPEAT) in
  let wrapT := defined_or (Options.wrapT options) (VNum gl.REPEAT) in
  let wrapR := defined_or (Options.wrapR options) (VNum gl.REPEAT) in
  let compareMode := defined_or (Options.compareMode options) (VNum gl.NONE) in
  let compareFunc := defined_or (Options.compareFunc options) (VNum gl.LEQUAL) in
  let minLOD := defined_or (Options.minLOD options) VNull in
  let maxLOD := defined_or (Options.maxLOD options) VNull in
  let '(s, w) := gl_createSampler w in
  let sampler := Some s in
  let w := gl_call (SamplerParameteri sampler gl.TEXTURE_MIN_FILTER minFilter) w in
  let w := gl_call (SamplerParameteri sampler gl.TEXTURE_MAG_FILTER magFilter) w in
  let w := gl_call (SamplerParameteri sampler gl.TEXTURE_WRAP_S wrapS) w in
  let w := gl_call (SamplerParameteri sampler gl.TEXTURE_WRAP_T wrapT) w in
  let w := gl_call (SamplerParameteri sampler gl.TEXTURE_WRAP_R wrapR) w in
  let w := gl_call (SamplerParameteri sampler gl.TEXTURE_COMPARE_FUNC compareFunc) w in
  let w := gl_call (SamplerParameteri sampler gl.TEXTURE_COMPARE_MODE compareMode) w in
  let w :=
    if strict_neq minLOD VNull
    then gl_call (SamplerParameterf sampler gl.TEXTURE_MIN_LOD minLOD) w
    else w in
  let w :=
    if strict_neq maxLOD VNull
    then gl_call (SamplerParameterf sampler gl.TEXTURE_MAX_LOD maxLOD) w
    else w in
  let this :=
    {| Texture.self := self;
       Texture.binding := binding;
       Texture.texture := None;
       Texture.width := VNum (-1);
       Texture.height := VNum (-1);
       Texture.depth := VNum (-1);
       Texture.format := format;
       Texture.type := type;
       Texture.internalFormat := internalFormat;
       Texture.is3D := is3D;
       Texture.sampler := sampler;
       Texture.flipY := defined_or (Options.flipY options) (VBool false);
       Texture.baseLevel := defined_or (Options.baseLevel options) VNull;
       Texture.maxLevel := defined_or (Options.maxLevel options) VNull;
       Texture.generateMipmaps :=
         strict_neq (Options.generateMipmaps options) (VBool false)
         && mipmap_filter minFilter |} in
  let '(this, w) := resize width height depth this w in
  let '(this, w) := data image this w in
  let '(this, w) := bind 0 this w in
  Normal (this, w).

End Constructor.

(** *** Examples *)

Definition world0 : World := {| fresh := 0; calls := []; appState := ∅ |}.

(** A table with the one row the examples use. *)
Definition table0 (type : value) : option (value → value) :=
  if strict_eq type (VNum gl.UNSIGNED_BYTE)
  then Some (λ format, if strict_eq format (VNum gl.RGBA)
                       then VNum gl.RGBA8 else VUndefined)
  else None.

(** The texture that [new Texture(gl, appState, gl.TEXTURE_2D, null,
    100, 50, null, false)] builds in [world0], and the world after it. *)
Definition sample2D : Texture :=
  {| Texture.self := 7%nat;
     Texture.binding := VNum gl.TEXTURE_2D;
     Texture.texture := Some (WebGLObject 1);
     Texture.width := VNum 100;
     Texture.height := VNum 50;
     Texture.depth := VNum 0;
     Texture.format := VNum gl.RGBA;
     Texture.type := VNum gl.UNSIGNED_BYTE;
     Texture.internalFormat := VNum gl.RGBA8;
     Texture.is3D := false;
     Texture.sampler := Some (WebGLObject 0);
     Texture.flipY := VBool false;
     Texture.baseLevel := VNull;
     Texture.maxLevel := VNull;
     Texture.generateMipmaps := true |}.

Definition sample_world : World :=
  {| fresh := 2;
     calls :=
       [CreateSampler;
        SamplerParameteri (Some (WebGLObject 0)) gl.TEXTURE_MIN_FILTER
                          (VNum gl.LINEAR_MIPMAP_NEAREST);
        SamplerParameteri (Some (WebGLObject 0)) gl.TEXTURE_MAG_FILTER
                          (VNum gl.LINEAR);
        SamplerParameteri (Some (WebGLObject 0)) gl.TEXTURE_WRAP_S (VNum gl.REPEAT);
        SamplerParameteri (Some (WebGLObject 0)) gl.TEXTURE_WRAP_T (VNum gl.REPEAT);
        SamplerParameteri (Some (WebGLObject 0)) gl.TEXTURE_WRAP_R (VNum gl.REPEAT);
        SamplerParameteri (Some (WebGLObject 0)) gl.TEXTURE_COMPARE_FUNC
                          (VNum gl.LEQUAL);
        SamplerParameteri (Some (WebGLObject 0)) gl.TEXTURE_COMPARE_MODE
                          (VNum gl.NONE);
        DeleteTexture None;
        CreateTexture;
        ActiveTexture gl.TEXTURE0;
        BindTexture (VNum gl.TEXTURE_2D) (Some (WebGLObject 1));
        BindSampler 0 (Some (WebGLObject 0));
        PixelStorei gl.UNPACK_FLIP_Y_WEBGL (VBool false);
        TexStorage2D (VNum gl.TEXTURE_2D) (Int 7) (VNum gl.RGBA8)
                     (VNum 100) (VNum 50);
        ActiveTexture gl.TEXTURE0;
        BindTexture (VNum gl.TEXTURE_2D) (Some (WebGLObject 1));
        BindSampler 0 (Some (WebGLObject 0))];
     appState := ∅ |}.

(** A 2D texture that never held storage. *)
Definition blank2D : Texture :=
  {| Texture.self := 9%nat;
     Texture.binding := VNum gl.TEXTURE_2D;
     Texture.texture := None;
     Texture.width := VNum (-1);
     Texture.height := VNum (-1);
     Texture.depth := VNum (-1);
     Texture.format := VNum gl.RGBA;
     Texture.type := VNum gl.UNSIGNED_BYTE;
     Texture.internalFormat := VNum gl.RGBA8;
     Texture.is3D := false;
     Texture.sampler := None;
     Texture.flipY := VBool false;
     Texture.baseLevel := VNull;
     Texture.maxLevel := VNull;
     Texture.generateMipmaps := false |}.

(** A volume texture with mipmaps, not yet allocated. *)
Definition blank3D : Texture :=
  {| Texture.self := 8%nat;
     Texture.binding := VNum gl.TEXTURE_3D;
     Texture.texture := None;
     Texture.width := VNum (-1);
     Texture.height := VNum (-1);
     Texture.depth := VNum (-1);
     Texture.format := VNum gl.RGBA;
     Texture.type := VNum gl.UNSIGNED_BYTE;
     Texture.internalFormat := VNum gl.RGBA8;
     Texture.is3D := true;
     Texture.sampler := Some (WebGLObject 2);
     Texture.flipY := VBool false;
     Texture.baseLevel := VNull;
     Texture.maxLevel := VNull;
     Texture.generateMipmaps := true |}.

(** Two option bags: mipmaps switched off, and mipmaps asked for with a
    filter that does not sample them. *)
Definition options_no_mipmaps : Options.t :=
  {| Options.format := VUndefined; Options.type := VUndefined;
     Options.internalFormat := VUndefined; Options.minFilter := VUndefined;
     Options.magFilter := VUndefined; Options.wrapS := VUndefined;
     Options.wrapT := VUndefined; Options.wrapR := VUndefined;
     Options.compareMode := VUndefined; Options.compareFunc := VUndefined;
     Options.minLOD := VUndefined; Options.maxLOD := VUndefined;
     Options.flipY := VUndefined; Options.baseLevel := VUndefined;
     Options.maxLevel := VUndefined; Options.generateMipmaps := VBool false |}.

Definition options_nearest_mipmaps : Options.t :=
  {| Options.format := VUndefined; Options.type := VUndefined;
     Options.internalFormat := VUndefined; Options.minFilter := VNum gl.NEAREST;
     Options.magFilter := VUndefined; Options.wrapS := VUndefined;
     Options.wrapT := VUndefined; Options.wrapR := VUndefined;
     Options.compareMode := VUndefined; Options.compareFunc := VUndefined;
     Options.minLOD := VUndefined; Options.maxLOD := VUndefined;
     Options.flipY := VUndefined; Options.baseLevel := VUndefined;
     Options.maxLevel := VUndefined; Options.generateMipmaps := VBool true |}.

(** ** Sequences of operations after construction *)

Inductive op :=
  | Resize (width height depth : value)
  | Data (d : option Image)
  | Bind (unit : Z).

Definition step (s : Texture * World) (o : op) : Texture * World :=
  match o with
  | Resize width height depth => resize width height depth s.1 s.2
  | Data d => data d s.1 s.2
  | Bind unit => bind unit s.1 s.2
  end.

Definition run (ops : list op) (s : Texture * World) : Texture * World :=
  foldl step s ops.

(** ** Vocabulary of the properties *)

(** The recorded size of a texture is the triple a call of [resize]
    asks for, the depth normalised as [resize] does. *)
Definition has_size (this : Texture) (width height depth : value) : Prop :=
  Texture.width this = width
  ∧ Texture.height this = height
  ∧ Texture.depth this = or_else depth (VNum 0).

#[global] Instance has_size_dec this width height depth :
  Decision (has_size this width height depth).
Proof. unfold has_size. apply _. Defined.

(** A handle held by a texture was issued by the context, or is [null]. *)
Definition issued (h : option handle) (w : World) : Prop :=
  match h with
  | Some (WebGLObject n) => (n < fresh w)%nat
  | None => True
  end.

Definition owned (this : Texture) (w : World) : Prop :=
  issued (Texture.texture this) w ∧ issued (Texture.sampler this) w.

(** The storage allocations among some calls. *)
Definition is_storage (c : glcall) : bool :=
  match c with
  | TexStorage2D _ _ _ _ _ | TexStorage3D _ _ _ _ _ _ => true
  | _ => false
  end.

Definition storage_calls (l : list glcall) : list glcall :=
  filter (λ c, is_storage c = true) l.

(** The calls that create, program or release a sampler. *)
Definition is_sampler_call (c : glcall) : bool :=
  match c with
  | CreateSampler | SamplerParameteri _ _ _ | SamplerParameterf _ _ _
  | DeleteSampler _ => true
  | _ => false
  end.

Definition sampler_calls (l : list glcall) : list glcall :=
  filter (λ c, is_sampler_call c = true) l.

(** A size that storage can be allocated with: positive, and in the
    range of [GLsizei], the 32-bit signed type of the sizes that
    [texStorage2D] and [texStorage3D] take. *)
Definition is_size (n : Z) : Prop := 0 < n < 2 ^ 31.

(** The level count as the specification words it:
    [floor(log2(max(dims))) + 1] when mipmaps are enabled, that is the
    [L >= 1] with [2^(L-1) <= max(dims) < 2^L], and [1] otherwise. *)
Definition max_dim (dims : list Z) : Z := foldr Z.max 0 dims.

Definition spec_levels (mipmaps : bool) (dims : list Z) (L : Z) : Prop :=
  if mipmaps
  then 1 ≤ L ∧ 2 ^ (L - 1) ≤ max_dim dims < 2 ^ L
  else L = 1.

(** What [resize] does when the size differs: the new handle, the new
    fields and the calls, in order. *)
Definition resized (width height depth : value) (this : Texture) (w : World)
  : Texture :=
  Texture.set_size width height (or_else depth (VNum 0))
    (Texture.set_texture (Some (WebGLObject (fresh w))) this).

Definition resize_calls (width height depth : value) (this : Texture)
    (w : World) : list glcall :=
  let this' := resized width height depth this w in
  [DeleteTexture (Texture.texture this); CreateTexture;
   ActiveTexture (gl.TEXTURE0 + 0);
   BindTexture (Texture.binding this) (Some (WebGLObject (fresh w)));
   BindSampler 0 (Texture.sampler this);
   PixelStorei gl.UNPACK_FLIP_Y_WEBGL (Texture.flipY this)]
  ++ (if strict_neq (Texture.baseLevel this) VNull
      then [TexParameteri (Texture.binding this) gl.TEXTURE_BASE_LEVEL
                          (Texture.baseLevel this)] else [])
  ++ (if strict_neq (Texture.maxLevel this) VNull
      then [TexParameteri (Texture.binding this) gl.TEXTURE_MAX_LEVEL
                          (Texture.maxLevel this)] else [])
  ++ [if Texture.is3D this
      then TexStorage3D (Texture.binding this) (levels this')
             (Texture.internalFormat this) width height (or_else depth (VNum 0))
      else TexStorage2D (Texture.binding this) (levels this')
             (Texture.internalFormat this) width height].

(** The calls of [data]. *)
Definition data_calls (d : option Image) (this : Texture) : list glcall :=
  match d with
  | Some d =>
      [if Texture.is3D this
       then TexSubImage3D (Texture.binding this) 0 0 0 0
              (Texture.width this) (Texture.height this) (Texture.depth this)
              (Texture.format this) (Texture.type this) d
       else TexSubImage2D (Texture.binding this) 0 0 0
              (Texture.width this) (Texture.height this)
              (Texture.format this) (Texture.type this) d]
      ++ (if Texture.generateMipmaps this
          then [GenerateMipmap (Texture.binding this)] else [])
  | None => []
  end.

(** The calls that create a sampler. *)
Definition is_createSampler (c : glcall) : bool :=
  match c with CreateSampler => true | _ => false end.

Definition createSampler_calls (l : list glcall) : list glcall :=
  filter (λ c, is_createSampler c = true) l.

(** The claim that [bind] records the texture in the tracked state. *)
Definition bind_tracks (unit : Z) (this : Texture) (w : World) : Prop :=
  appState (bind unit this w).2 !! unit = Some (Texture.self this).

(** ** Sessions *)

(** Any method of a texture, [delete] included, and a sequence of calls
    of them on one texture. *)
Inductive method :=
  | Call (o : op)
  | Delete.

Definition invoke (s : Texture * World) (m : method) : Texture * World :=
  match m with
  | Call o => step s o
  | Delete => delete s.1 s.2
  end.

Definition session (ms : list method) (s : Texture * World) : Texture * World :=
  foldl invoke s ms.

(** The properties of a texture that no method assigns. *)
Definition config (this : Texture)
  : objref * value * value * value * value * bool * value * value * value * bool :=
  (Texture.self this, Texture.binding this, Texture.format this,
   Texture.type this, Texture.internalFormat this, Texture.is3D this,
   Texture.flipY this, Texture.baseLevel this, Texture.maxLevel this,
   Texture.generateMipmaps this).

(** The storage allocation that the recorded size of a texture stands
    for. *)
Definition storage_of (this : Texture) : glcall :=
  if Texture.is3D this
  then TexStorage3D (Texture.binding this) (levels this)
         (Texture.internalFormat this)
         (Texture.width this) (Texture.height this) (Texture.depth this)
  else TexStorage2D (Texture.binding this) (levels this)
         (Texture.internalFormat this)
         (Texture.width this) (Texture.height this).

(** The extent that a storage allocation or an upload names. *)
Definition call_size (c : glcall) : option (value * value * option value) :=
  match c with
  | TexStorage2D _ _ _ width height => Some (width, height, None)
  | TexStorage3D _ _ _ width height depth => Some (width, height, Some depth)
  | TexSubImage2D _ _ _ _ width height _ _ _ => Some (width, height, None)
  | TexSubImage3D _ _ _ _ _ width height depth _ _ _ =>
      Some (width, height, Some depth)
  | _ => None
  end.


(** The objects of the context: the next name it will issue, and the
    textures and samplers created and not deleted.  [track] follows one
    call; deleting [null] or a name that is not live changes nothing. *)
Record objects := {
  next_name : nat;
  live_textures : gset nat;
  live_samplers : gset nat;
}.

Definition names (h : option handle) : gset nat :=
  match h with
  | Some (WebGLObject n) => {[ n ]}
  | None => ∅
  end.

Definition track (o : objects) (c : glcall) : objects :=
  match c with
  | CreateTexture =>
      {| next_name := S (next_name o);
         live_textures := {[ next_name o ]} ∪ live_textures o;
         live_samplers := live_samplers o |}
  | CreateSampler =>
      {| next_name := S (next_name o);
         live_textures := live_textures o;
         live_samplers := {[ next_name o ]} ∪ live_samplers o |}
  | DeleteTexture h =>
      {| next_name := next_name o;
         live_textures := live_textures o ∖ names h;
         live_samplers := live_samplers o |}
  | DeleteSampler h =>
      {| next_name := next_name o;
         live_textures := live_textures o;
         live_samplers := live_samplers o ∖ names h |}
  | _ => o
  end.

Definition tracked (o : objects) (l : list glcall) : objects := foldl track o l.

(** The objects of a context that issued [n] names, none of them live. *)
Definition no_objects (n : nat) : objects :=
  {| next_name := n; live_textures := ∅; live_samplers := ∅ |}.

(** The objects that a texture accounts for. *)
Definition objects_of (this : Texture) (w : World) : objects :=
  {| next_name := fresh w;
     live_textures := names (Texture.texture this);
     live_samplers := names (Texture.sampler this) |}.

(** An image of 64 by 32 pixels. *)
Definition image64x32 : Image :=
  {| img_width := VNum 64; img_height := VNum 32 |}.

(** What holds of a texture and its world ever since the world [w0] in
    which its construction began, [l] being the calls issued since: a
    texture that holds a handle records the size of the latest storage
    allocation, and the objects created and not deleted are the ones the
    texture holds. *)
Definition consistent (w0 : World) (this : Texture) (w : World) : Prop :=
  ∃ l : list glcall,
    calls w = calls w0 ++ l
    ∧ (is_Some (Texture.texture this) →
       last (storage_calls l) = Some (storage_of this))
    ∧ tracked (no_objects (fresh w0)) l = objects_of this w.

(** An option bag with floating-point texels: the type [FLOAT] and the
    internal format [RGBA32F]. *)
Definition options_float : Options.t :=
  {| Options.format := VUndefined; Options.type := VNum 0x1406;
     Options.internalFormat := VNum 0x8814; Options.minFilter := VUndefined;
     Options.magFilter := VUndefined; Options.wrapS := VUndefined;
     Options.wrapT := VUndefined; Options.wrapR := VUndefined;
     Options.compareMode := VUndefined; Options.compareFunc := VUndefined;
     Options.minLOD := VUndefined; Options.maxLOD := VUndefined;
     Options.flipY := VUndefined; Options.baseLevel := VUndefined;
     Options.maxLevel := VUndefined; Options.generateMipmaps := VUndefined |}.

(** A call that involves no mipmap chain: not a mipmap generation, and
    if a storage allocation, one of a single level. *)
Definition single_level (c : glcall) : bool :=
  match c with
  | GenerateMipmap _ => false
  | TexStorage2D _ levels _ _ _ | TexStorage3D _ levels _ _ _ _ =>
      bool_decide (levels = Int 1)
  | _ => true
  end.

(** * Properties *)

(** ** JavaScript operators *)

Example Math_max_cases :
  Math_max (Int 3) (Int 5) = Int 5
  ∧ Math_max NaN (Int 5) = NaN
  ∧ Math_max (Int 3) NaN = NaN
  ∧ Math_max NegInfinity (Int 5) = Int 5
  ∧ Math_max (Int 3) NegInfinity = Int 3
  ∧ Math_max NegInfinity NaN = NaN
  ∧ Math_max NegInfinity NegInfinity = NegInfinity.
Proof. repeat split. Qed.

Example Math_floor_log2_cases :
  Math_floor_log2 (Int 1) = Int 0
  ∧ Math_floor_log2 (Int 100) = Int 6
  ∧ Math_floor_log2 (Int 256) = Int 8
  ∧ Math_floor_log2 (Int 0) = NegInfinity
  ∧ Math_floor_log2 (Int (-4)) = NaN.
Proof. repeat split. Qed.

Example or_else_cases :
  or_else VUndefined (VNum 0) = VNum 0
  ∧ or_else VNull (VNum 0) = VNum 0
  ∧ or_else (VNum 0) (VNum 0) = VNum 0
  ∧ or_else (VNum 6) (VNum 0) = VNum 6.
Proof. repeat split. Qed.

(** ** The log of calls *)

Lemma emitted_app (w w' : World) (l : list glcall) :
  calls w' = calls w ++ l → emitted w w' = l.
Proof. unfold emitted. intros ->. by rewrite drop_app_length. Qed.

Lemma emitted_refl (w : World) : emitted w w = [].
Proof. apply emitted_app. by rewrite app_nil_r. Qed.

Lemma strict_eq_spec (a b : value) : strict_eq a b = true ↔ a = b.
Proof. unfold strict_eq. apply bool_decide_eq_true. Qed.

Lemma strict_eq_refl (a : value) : strict_eq a a = true.
Proof. by apply strict_eq_spec. Qed.

(** The guard of [resize] decides [has_size]. *)
Lemma resize_guard_spec (this : Texture) (width height depth : value) :
  strict_eq width (Texture.width this)
  && strict_eq height (Texture.height this)
  && strict_eq (or_else depth (VNum 0)) (Texture.depth this) = true
  ↔ has_size this width height depth.
Proof.
  unfold has_size. rewrite !andb_true_iff, !strict_eq_spec.
  split; intros [[-> ->] ->] || intros (-> & -> & ->); auto.
Qed.

Lemma resize_same (this : Texture) (w : World) (width height depth : value) :
  has_size this width height depth →
  resize width height depth this w = (this, w).
Proof.
  intros H. apply resize_guard_spec in H. unfold resize. by rewrite H.
Qed.

Lemma resize_differs (this : Texture) (w : World) (width height depth : value) :
  ¬ has_size this width height depth →
  ∃ w', resize width height depth this w = (resized width height depth this w, w')
        ∧ calls w' = calls w ++ resize_calls width height depth this w
        ∧ fresh w' = S (fresh w)
        ∧ appState w' = appState w.
Proof.
  intros H. rewrite <- resize_guard_spec in H. apply not_true_is_false in H.
  unfold resize. rewrite H. eexists. split; [reflexivity|].
  unfold resize_calls, resized. simpl.
  destruct this; simpl.
  destruct (strict_neq baseLevel VNull), (strict_neq maxLevel VNull), is3D;
    simpl; rewrite <- ?app_assoc; simpl; done.
Qed.

Lemma resize_has_size (this : Texture) (w : World) (width height depth : value) :
  has_size (resize width height depth this w).1 width height depth.
Proof.
  destruct (decide (has_size this width height depth)) as [H|H].
  - by rewrite resize_same.
  - destruct (resize_differs this w width height depth H) as (w' & -> & _).
    by destruct this.
Qed.

Lemma resize_twice (this : Texture) (w : World) (width height depth : value) :
  let r := resize width height depth this w in
  resize width height depth r.1 r.2 = r.
Proof.
  intros r. rewrite resize_same; [by destruct r|]. apply resize_has_size.
Qed.

Example new_100x50 :
  new_Texture table0 7%nat (VNum gl.TEXTURE_2D) None (VNum 100) (VNum 50)
              VNull false None world0 = Normal (sample2D, sample_world).
Proof. reflexivity. Qed.

(** ** Redundant resize *)

(** C1.  On a texture whose recorded size is [(width, height, depth)], the
    depth normalised to [0] when it is missing, [resize] with that triple
    returns at once: the object, its handle and its recorded size are
    the same, the world is the same, and the context received no call. *)
Theorem resize_same_size_noop (this : Texture) (w : World)
    (width height depth : value) :
  has_size this width height depth →
  let r := resize width height depth this w in
  r = (this, w)
  ∧ Texture.texture r.1 = Texture.texture this
  ∧ Texture.width r.1 = Texture.width this
  ∧ Texture.height r.1 = Texture.height this
  ∧ Texture.depth r.1 = Texture.depth this
  ∧ emitted w r.2 = [].
Proof.
  intros H r. subst r. rewrite (resize_same _ _ _ _ _ H). simpl.
  repeat split. apply emitted_refl.
Qed.

Lemma resize_same_size_noop_witness :
  has_size sample2D (VNum 100) (VNum 50) VUndefined
  ∧ resize (VNum 100) (VNum 50) VUndefined sample2D sample_world
    = (sample2D, sample_world)
  ∧ emitted sample_world
      (resize (VNum 100) (VNum 50) VUndefined sample2D sample_world).2 = [].
Proof.
  assert (H : has_size sample2D (VNum 100) (VNum 50) VUndefined)
    by (repeat split).
  split; [exact H|].
  pose proof (resize_same_size_noop sample2D sample_world
                (VNum 100) (VNum 50) VUndefined H) as (H1 & _ & _ & _ & _ & H2).
  split; [exact H1 | exact H2].
Defined.

(** ** Reallocation *)

Lemma issued_mono (h : option handle) (w w' : World) :
  (fresh w ≤ fresh w')%nat → issued h w → issued h w'.
Proof. destruct h as [[n]|]; simpl; [lia|done]. Qed.

(** C5.  When the requested triple differs from the recorded size,
    [resize] first has the context delete the handle it held and create
    a texture; the handle it holds afterwards is that new object, which
    the context had never issued and which differs from the previous
    handle; and the recorded size is the requested one. *)
Theorem resize_other_size_reallocates (this : Texture) (w : World)
    (width height depth : value) :
  owned this w →
  ¬ has_size this width height depth →
  ∃ (h : handle) (this' : Texture) (w' : World) (rest : list glcall),
    resize width height depth this w = (this', w')
    ∧ emitted w w' = DeleteTexture (Texture.texture this) :: CreateTexture :: rest
    ∧ Texture.texture this' = Some h
    ∧ Texture.texture this ≠ Some h
    ∧ ¬ issued (Some h) w
    ∧ issued (Some h) w'
    ∧ Texture.width this' = width
    ∧ Texture.height this' = height
    ∧ Texture.depth this' = or_else depth (VNum 0).
Proof.
  intros [Ht _] Hne.
  destruct (resize_differs this w width height depth Hne)
    as (w' & Hr & Hc & Hf & _).
  exists (WebGLObject (fresh w)), (resized width height depth this w), w'.
  eexists. split; [exact Hr|].
  split; [apply emitted_app; rewrite Hc; unfold resize_calls; reflexivity|].
  repeat split.
  - intros E. rewrite E in Ht. simpl in Ht. lia.
  - simpl. lia.
  - simpl. lia.
Qed.

Lemma resize_other_size_reallocates_witness :
  owned sample2D sample_world
  ∧ ¬ has_size sample2D (VNum 256) (VNum 256) VUndefined
  ∧ ∃ w', resize (VNum 256) (VNum 256) VUndefined sample2D sample_world
          = (resized (VNum 256) (VNum 256) VUndefined sample2D sample_world, w')
          ∧ Texture.texture
              (resized (VNum 256) (VNum 256) VUndefined sample2D sample_world)
            = Some (WebGLObject 2).
Proof.
  assert (Ho : owned sample2D sample_world) by (split; simpl; lia).
  assert (Hn : ¬ has_size sample2D (VNum 256) (VNum 256) VUndefined)
    by (intros [E _]; discriminate E).
  split; [exact Ho|]. split; [exact Hn|].
  destruct (resize_other_size_reallocates sample2D sample_world
              (VNum 256) (VNum 256) VUndefined Ho Hn)
    as (h & this' & w' & rest & Hr & _).
  exists w'. split; [|reflexivity].
  rewrite Hr. f_equal.
  change this' with (this', w').1. rewrite <- Hr. reflexivity.
Defined.

Lemma resize_owned (this : Texture) (w : World) (width height depth : value) :
  owned this w →
  owned (resize width height depth this w).1 (resize width height depth this w).2.
Proof.
  intros Ho. destruct (decide (has_size this width height depth)) as [H|H].
  - by rewrite resize_same.
  - destruct (resize_differs this w width height depth H) as (w' & -> & _ & Hf & _).
    destruct Ho as [_ Hs]. split; simpl; [lia|].
    eapply issued_mono; [|exact Hs]. lia.
Qed.

(** ** Deletion *)

(** C7.  With a handle, [delete] has the context delete the texture and
    the sampler and clears both fields; without one it does nothing; so
    a second [delete] changes nothing. *)
Theorem delete_idempotent (this : Texture) (w : World) :
  (∀ h, Texture.texture this = Some h →
        emitted w (delete this w).2
          = [DeleteTexture (Some h); DeleteSampler (Texture.sampler this)]
        ∧ Texture.texture (delete this w).1 = None
        ∧ Texture.sampler (delete this w).1 = None)
  ∧ (Texture.texture this = None → delete this w = (this, w))
  ∧ delete (delete this w).1 (delete this w).2 = delete this w.
Proof.
  unfold delete. destruct (Texture.texture this) as [h|] eqn:E.
  - split; [|split; [done|]].
    + intros h' [= <-]. split; [|done].
      apply emitted_app. simpl. by rewrite <- app_assoc.
    + reflexivity.
  - split; [done|]. split; [done|]. simpl. by rewrite E.
Qed.

Lemma delete_idempotent_witness :
  Texture.texture sample2D = Some (WebGLObject 1)
  ∧ emitted sample_world (delete sample2D sample_world).2
    = [DeleteTexture (Some (WebGLObject 1)); DeleteSampler (Some (WebGLObject 0))]
  ∧ Texture.texture (delete sample2D sample_world).1 = None
  ∧ Texture.texture blank2D = None
  ∧ delete blank2D world0 = (blank2D, world0).
Proof.
  destruct (delete_idempotent sample2D sample_world) as (H1 & _ & _).
  destruct (H1 (WebGLObject 1) eq_refl) as (Ha & Hb & _).
  destruct (delete_idempotent blank2D world0) as (_ & H2 & _).
  split; [reflexivity|]. split; [exact Ha|]. split; [exact Hb|].
  split; [reflexivity|]. exact (H2 eq_refl).
Defined.

(** C10.  [delete] keeps the recorded size.  So on a texture that held
    storage of size [(width, height, depth)], [resize] with that triple
    after [delete] returns at once: the handle stays [null] while the
    recorded size is still that of the storage released. *)
Theorem delete_keeps_size (this : Texture) (w : World) (h : handle)
    (width height depth : value) :
  Texture.texture this = Some h →
  has_size this width height depth →
  let d := delete this w in
  let r := resize width height depth d.1 d.2 in
  Texture.width d.1 = Texture.width this
  ∧ Texture.height d.1 = Texture.height this
  ∧ Texture.depth d.1 = Texture.depth this
  ∧ r = d
  ∧ emitted d.2 r.2 = []
  ∧ Texture.texture r.1 = None
  ∧ has_size r.1 width height depth.
Proof.
  intros Ht Hs d r.
  assert (Hd : has_size d.1 width height depth).
  { subst d. unfold delete. rewrite Ht. exact Hs. }
  assert (Hr : r = d).
  { subst r. rewrite (resize_same _ _ _ _ _ Hd). by destruct d. }
  rewrite Hr. repeat split; try apply Hd.
  - subst d. unfold delete. by rewrite Ht.
  - subst d. unfold delete. by rewrite Ht.
  - subst d. unfold delete. by rewrite Ht.
  - apply emitted_refl.
  - subst d. unfold delete. by rewrite Ht.
Qed.

Lemma delete_keeps_size_witness :
  Texture.texture sample2D = Some (WebGLObject 1)
  ∧ has_size sample2D (VNum 100) (VNum 50) VNull
  ∧ resize (VNum 100) (VNum 50) VNull
      (delete sample2D sample_world).1 (delete sample2D sample_world).2
    = delete sample2D sample_world
  ∧ Texture.texture (delete sample2D sample_world).1 = None
  ∧ Texture.width (delete sample2D sample_world).1 = VNum 100.
Proof.
  assert (Hs : has_size sample2D (VNum 100) (VNum 50) VNull) by (repeat split).
  pose proof (delete_keeps_size sample2D sample_world (WebGLObject 1)
                (VNum 100) (VNum 50) VNull eq_refl Hs)
    as (H1 & _ & _ & H2 & _ & H3 & _).
  split; [reflexivity|]. split; [exact Hs|]. split; [exact H2|].
  split; [reflexivity | exact H1].
Defined.

(** ** Binding *)

Lemma bind_spec (unit : Z) (this : Texture) (w : World) :
  ∃ w', bind unit this w = (this, w')
        ∧ calls w' = calls w
                     ++ [ActiveTexture (gl.TEXTURE0 + unit);
                         BindTexture (Texture.binding this) (Texture.texture this);
                         BindSampler unit (Texture.sampler this)]
        ∧ fresh w' = fresh w
        ∧ appState w' = appState w.
Proof.
  eexists. split; [reflexivity|]. simpl. by rewrite <- !app_assoc.
Qed.

(** C3, as amended.  [bind] issues the activate-unit, bind-texture and
    bind-sampler calls and nothing else: the texture is unchanged and
    the tracked state is left as it was, by [bind] and by the [bind(0)]
    inside [resize] alike. *)
Theorem bind_leaves_tracked_state (unit : Z) (this : Texture) (w : World) :
  (bind unit this w).1 = this
  ∧ emitted w (bind unit this w).2
    = [ActiveTexture (gl.TEXTURE0 + unit);
       BindTexture (Texture.binding this) (Texture.texture this);
       BindSampler unit (Texture.sampler this)]
  ∧ appState (bind unit this w).2 = appState w
  ∧ ∀ width height depth : value,
      appState (resize width height depth this w).2 = appState w.
Proof.
  destruct (bind_spec unit this w) as (w' & -> & Hc & _ & Ha).
  split; [done|]. split; [by apply emitted_app|]. split; [done|].
  intros width height depth.
  destruct (decide (has_size this width height depth)) as [H|H].
  - by rewrite resize_same.
  - destruct (resize_differs this w width height depth H)
      as (w1 & -> & _ & _ & Ha1).
    exact Ha1.
Qed.

(** C3, as stated, fails: after [bind(0)] in a world whose tracked state
    has no record for unit 0, there is still none; and likewise after a
    [resize] that reallocates. *)
Lemma bind_does_not_track :
  ¬ bind_tracks 0 sample2D sample_world
  ∧ appState (bind 0 sample2D sample_world).2 !! 0 = None
  ∧ appState (resize (VNum 256) (VNum 256) VNull sample2D sample_world).2 !! 0
    = None.
Proof.
  unfold bind_tracks. split; [|split]; done.
Qed.

(** A record that names another texture for unit 0 still names it after
    this texture is bound there. *)
Example bind_keeps_other_record :
  let w := {| fresh := 2; calls := []; appState := {[ 0 := 42%nat ]} |} in
  appState (bind 0 sample2D w).2 !! 0 = Some 42%nat.
Proof. reflexivity. Qed.

(** ** Mipmap levels *)

Lemma storage_calls_app (l k : list glcall) :
  storage_calls (l ++ k) = storage_calls l ++ storage_calls k.
Proof. apply filter_app. Qed.

Lemma storage_calls_resize (width height depth : value) (this : Texture)
    (w : World) :
  storage_calls (resize_calls width height depth this w)
  = [if Texture.is3D this
     then TexStorage3D (Texture.binding this)
            (levels (resized width height depth this w))
            (Texture.internalFormat this) width height (or_else depth (VNum 0))
     else TexStorage2D (Texture.binding this)
            (levels (resized width height depth this w))
            (Texture.internalFormat this) width height].
Proof.
  unfold resize_calls.
  destruct (strict_neq (Texture.baseLevel this) VNull),
           (strict_neq (Texture.maxLevel this) VNull),
           (Texture.is3D this); reflexivity.
Qed.

(** The integer logarithm is the [floor(log2 m)] of the specification. *)
Lemma floor_log2_levels (m : Z) :
  0 < m →
  plus_one (Math_floor_log2 (Int m)) = Int (Z.log2 m + 1)
  ∧ 1 ≤ Z.log2 m + 1
  ∧ 2 ^ (Z.log2 m + 1 - 1) ≤ m < 2 ^ (Z.log2 m + 1).
Proof.
  intros Hm. split.
  - simpl. by rewrite (proj2 (Z.ltb_lt 0 m) Hm).
  - pose proof (Z.log2_nonneg m). pose proof (Z.log2_spec m Hm) as Hs.
    replace (Z.log2 m + 1 - 1) with (Z.log2 m) by lia.
    replace (Z.log2 m + 1) with (Z.succ (Z.log2 m)) at 2 3 by lia.
    split; [lia | exact Hs].
Qed.

(** C2.  A [resize] that allocates, with sizes that storage can have
    (positive, in the range of [GLsizei]), issues one storage allocation,
    and the level count it passes is
    [floor(log2(max(width, height, depth))) + 1] on a 3D-shaped texture
    with mipmaps, [floor(log2(max(width, height))) + 1] on a 2D-shaped
    one with mipmaps, and [1] without mipmaps. *)
Theorem resize_levels (this : Texture) (w : World) (x y z : Z) (depth : value) :
  is_size x → is_size y →
  (Texture.is3D this = true → depth = VNum z ∧ is_size z) →
  ¬ has_size this (VNum x) (VNum y) depth →
  ∃ L : Z,
    storage_calls (emitted w (resize (VNum x) (VNum y) depth this w).2)
    = [if Texture.is3D this
       then TexStorage3D (Texture.binding this) (Int L)
              (Texture.internalFormat this) (VNum x) (VNum y) (VNum z)
       else TexStorage2D (Texture.binding this) (Int L)
              (Texture.internalFormat this) (VNum x) (VNum y)]
    ∧ spec_levels (Texture.generateMipmaps this)
                  (if Texture.is3D this then [x; y; z] else [x; y]) L.
Proof.
  intros [Hx _] [Hy _] Hz Hne.
  destruct (resize_differs this w _ _ _ Hne) as (w' & -> & Hc & _).
  simpl. rewrite (emitted_app _ _ _ Hc), storage_calls_resize.
  unfold levels, resized, spec_levels, max_dim. destruct this as
    [self binding texture wd ht dp format type ifmt is3D sampler flipY
     baseLevel maxLevel mip]; simpl in *.
  destruct is3D.
  - destruct (Hz eq_refl) as [-> [Hz' _]]. unfold or_else. simpl.
    rewrite (proj2 (Z.eqb_neq z 0)) by lia. simpl.
    destruct mip.
    + destruct (floor_log2_levels (Z.max (Z.max x y) z)) as (E & H1 & H2);
        [lia|].
      simpl in E. rewrite E.
      eexists. split; [reflexivity|]. simpl.
      replace (Z.max x (Z.max y (Z.max z 0))) with (Z.max (Z.max x y) z) by lia.
      split; [exact H1 | exact H2].
    + by exists 1.
  - destruct mip.
    + destruct (floor_log2_levels (Z.max x y)) as (E & H1 & H2); [lia|].
      simpl in E. rewrite E.
      eexists. split; [reflexivity|]. simpl.
      replace (Z.max x (Z.max y 0)) with (Z.max x y) by lia.
      split; [exact H1 | exact H2].
    + by exists 1.
Qed.

Lemma resize_levels_witness :
  is_size 4 ∧ is_size 8 ∧ is_size 33
  ∧ ¬ has_size blank3D (VNum 4) (VNum 8) (VNum 33)
  ∧ ∃ L : Z,
      storage_calls
        (emitted world0 (resize (VNum 4) (VNum 8) (VNum 33) blank3D world0).2)
      = [TexStorage3D (VNum gl.TEXTURE_3D) (Int L) (VNum gl.RGBA8)
                      (VNum 4) (VNum 8) (VNum 33)]
      ∧ 2 ^ (L - 1) ≤ 33 < 2 ^ L.
Proof.
  assert (Hn : ¬ has_size blank3D (VNum 4) (VNum 8) (VNum 33))
    by (intros [E _]; discriminate E).
  assert (H4 : is_size 4) by (unfold is_size; lia).
  assert (H8 : is_size 8) by (unfold is_size; lia).
  assert (H33 : is_size 33) by (unfold is_size; lia).
  split; [exact H4|]. split; [exact H8|]. split; [exact H33|].
  split; [exact Hn|].
  destruct (resize_levels blank3D world0 4 8 33 (VNum 33) H4 H8
              (λ _, conj eq_refl H33) Hn) as (L & H1 & H2).
  exists L. split; [exact H1|]. destruct H2 as [_ H2]. exact H2.
Defined.

(** The level count is [1] without mipmaps, whatever the sizes are. *)
Lemma resize_levels_disabled (this : Texture) (w : World)
    (width height depth : value) :
  Texture.generateMipmaps this = false →
  levels (resized width height depth this w) = Int 1.
Proof. unfold levels. simpl. intros ->. by destruct (Texture.is3D this). Qed.

(** The sizes the specification lists: 256 x 256 has 9 levels and
    100 x 50 has 7. *)
Example levels_256x256 :
  storage_calls
    (emitted sample_world
       (resize (VNum 256) (VNum 256) VNull sample2D sample_world).2)
  = [TexStorage2D (VNum gl.TEXTURE_2D) (Int 9) (VNum gl.RGBA8)
                  (VNum 256) (VNum 256)].
Proof. reflexivity. Qed.

Example levels_100x50 :
  ∃ this w,
    new_Texture table0 7%nat (VNum gl.TEXTURE_2D) None (VNum 100) (VNum 50)
                VNull false None world0 = Normal (this, w)
    ∧ storage_calls (emitted world0 w)
      = [TexStorage2D (VNum gl.TEXTURE_2D) (Int 7) (VNum gl.RGBA8)
                      (VNum 100) (VNum 50)].
Proof. eexists _, _. split; reflexivity. Qed.

(** ** Frames of the methods *)

Lemma data_spec (d : option Image) (this : Texture) (w : World) :
  ∃ w', data d this w = (this, w')
        ∧ calls w' = calls w ++ data_calls d this
        ∧ fresh w' = fresh w
        ∧ appState w' = appState w.
Proof.
  destruct d as [d|]; simpl.
  - eexists. split; [reflexivity|].
    destruct (Texture.is3D this), (Texture.generateMipmaps this); simpl;
      rewrite <- ?app_assoc; done.
  - exists w. by rewrite app_nil_r.
Qed.

Lemma sampler_calls_app (l k : list glcall) :
  sampler_calls (l ++ k) = sampler_calls l ++ sampler_calls k.
Proof. apply filter_app. Qed.

Lemma sampler_calls_resize (width height depth : value) (this : Texture)
    (w : World) :
  sampler_calls (resize_calls width height depth this w) = [].
Proof.
  unfold resize_calls.
  destruct (strict_neq (Texture.baseLevel this) VNull),
           (strict_neq (Texture.maxLevel this) VNull),
           (Texture.is3D this); reflexivity.
Qed.

Lemma sampler_calls_data (d : option Image) (this : Texture) :
  sampler_calls (data_calls d this) = [].
Proof.
  destruct d; [|done]. unfold data_calls.
  destruct (Texture.is3D this), (Texture.generateMipmaps this); reflexivity.
Qed.

(** One operation extends the log by calls that do not touch a sampler
    object, issues no new name below, and keeps the fields that are set
    at construction. *)
Lemma step_frame (s : Texture * World) (o : op) :
  ∃ l, calls (step s o).2 = calls s.2 ++ l
       ∧ sampler_calls l = []
       ∧ Texture.sampler (step s o).1 = Texture.sampler s.1
       ∧ Texture.generateMipmaps (step s o).1 = Texture.generateMipmaps s.1.
Proof.
  destruct s as [this w], o as [width height depth|d|unit]; cbn [step fst snd].
  - destruct (decide (has_size this width height depth)) as [H|H].
    + rewrite resize_same by done. exists []. by rewrite app_nil_r.
    + destruct (resize_differs this w width height depth H) as (w' & -> & Hc & _).
      eexists. split; [exact Hc|]. split; [apply sampler_calls_resize|done].
  - destruct (data_spec d this w) as (w' & -> & Hc & _).
    eexists. split; [exact Hc|]. split; [apply sampler_calls_data|done].
  - destruct (bind_spec unit this w) as (w' & -> & Hc & _).
    eexists. split; [exact Hc|]. done.
Qed.

Lemma run_frame (ops : list op) (s : Texture * World) :
  ∃ l, calls (run ops s).2 = calls s.2 ++ l
       ∧ sampler_calls l = []
       ∧ Texture.sampler (run ops s).1 = Texture.sampler s.1
       ∧ Texture.generateMipmaps (run ops s).1 = Texture.generateMipmaps s.1.
Proof.
  revert s. induction ops as [|o ops IH]; intros s.
  - exists []. by rewrite app_nil_r.
  - destruct (step_frame s o) as (l1 & Hc1 & Hs1 & Hp1 & Hg1).
    destruct (IH (step s o)) as (l2 & Hc2 & Hs2 & Hp2 & Hg2).
    exists (l1 ++ l2). unfold run in *. simpl.
    rewrite Hc2, Hc1, Hp2, Hp1, Hg2, Hg1, sampler_calls_app, Hs1, Hs2.
    by rewrite app_assoc.
Qed.

(** The three closing calls of the constructor are a run of operations. *)
Lemma finish_run (image : option Image) (width height depth : value)
    (this : Texture) (w : World) :
  finish image width height depth this w
  = run [Resize width height depth; Data image; Bind 0] (this, w).
Proof.
  unfold finish, run. simpl.
  destruct (resize width height depth this w) as [t1 w1]. simpl.
  by destruct (data image t1 w1) as [t2 w2].
Qed.

Lemma finish_spec (image : option Image) (width height depth : value)
    (this : Texture) (w : World) :
  let r := resize width height depth this w in
  ∃ w', finish image width height depth this w = (r.1, w')
        ∧ calls w' = calls r.2 ++ data_calls image r.1
                     ++ [ActiveTexture (gl.TEXTURE0 + 0);
                         BindTexture (Texture.binding r.1) (Texture.texture r.1);
                         BindSampler 0 (Texture.sampler r.1)]
        ∧ fresh w' = fresh r.2.
Proof.
  intros r. unfold finish. fold r. destruct r as [t1 w1]. simpl.
  destruct (data_spec image t1 w1) as (w2 & -> & Hc2 & Hf2 & _).
  destruct (bind_spec 0 t1 w2) as (w3 & -> & Hc3 & Hf3 & _).
  exists w3. split; [done|]. rewrite Hc3, Hc2, Hf3, Hf2.
  by rewrite <- app_assoc.
Qed.

(** ** The constructor *)

Section ConstructorProperties.

Variable TEXTURE_FORMAT_DEFAULTS : value → option (value → value).

Lemma new_Texture_unfold (self : objref) (binding : value)
    (image : option Image) (width height depth : value) (is3D : bool)
    (options : option Options.t) (w : World) :
  new_Texture TEXTURE_FORMAT_DEFAULTS self binding image width height depth
              is3D options w
  = (width' ← or_prop width image img_width;
     height' ← or_prop height image img_height;
     internalFormat ← resolve_internalFormat TEXTURE_FORMAT_DEFAULTS options;
     Normal (finish image width' height' depth
               (initial self binding internalFormat is3D options
                        (Some (WebGLObject (fresh w))))
               (with_sampler options w))).
Proof.
  unfold new_Texture, resolve_internalFormat, resolved_type, resolved_format.
  destruct (or_prop width image img_width) as [width'|e]; [|done].
  destruct (or_prop height image img_height) as [height'|e]; [|done].
  simpl.
  match goal with
  | |- mbind _ ?m = mbind _ ?m => destruct m as [internalFormat|e]; [|done]
  end.
  simpl.
  assert (E : ∀ (t : Texture) (w1 w2 : World), w1 = w2 →
    (let '(this, w) := resize width' height' depth t w1 in
     let '(this0, w0) := data image this w in
     Normal (this0, gl_call (BindSampler 0 (Texture.sampler this0))
        (gl_call (BindTexture (Texture.binding this0) (Texture.texture this0))
           (gl_call (ActiveTexture (gl.TEXTURE0 + 0)) w0))))
    = Normal (finish image width' height' depth t w2)).
  { intros t w1 w2 ->. unfold finish.
    destruct (resize width' height' depth t w2) as [t1 w1'].
    by destruct (data image t1 w1') as [t2 w2']. }
  apply E. unfold with_sampler, sampler_setup, gl_call. simpl.
  destruct (strict_neq (defined_or (Options.minLOD _) VNull) VNull),
           (strict_neq (defined_or (Options.maxLOD _) VNull) VNull);
    simpl; rewrite <- ?app_assoc; reflexivity.
Qed.

Lemma new_Texture_inv (self : objref) (binding : value)
    (image : option Image) (width height depth : value) (is3D : bool)
    (options : option Options.t) (w : World) (this : Texture) (w' : World) :
  new_Texture TEXTURE_FORMAT_DEFAULTS self binding image width height depth
              is3D options w = Normal (this, w') →
  ∃ width' height' internalFormat,
    or_prop width image img_width = Normal width'
    ∧ or_prop height image img_height = Normal height'
    ∧ resolve_internalFormat TEXTURE_FORMAT_DEFAULTS options = Normal internalFormat
    ∧ finish image width' height' depth
        (initial self binding internalFormat is3D options
                 (Some (WebGLObject (fresh w))))
        (with_sampler options w) = (this, w').
Proof.
  rewrite new_Texture_unfold.
  destruct (or_prop width image img_width) as [width'|e]; [|done].
  destruct (or_prop height image img_height) as [height'|e]; [|done].
  destruct (resolve_internalFormat _ options) as [internalFormat|e]; [|done].
  simpl. intros [= H]. by exists width', height', internalFormat.
Qed.

(** What a constructed texture holds, and the calls of its construction:
    the sampler set-up, then calls that leave samplers alone. *)
Lemma new_Texture_frame (self : objref) (binding : value)
    (image : option Image) (width height depth : value) (is3D : bool)
    (options : option Options.t) (w : World) (this : Texture) (w' : World) :
  new_Texture TEXTURE_FORMAT_DEFAULTS self binding image width height depth
              is3D options w = Normal (this, w') →
  Texture.sampler this = Some (WebGLObject (fresh w))
  ∧ Texture.generateMipmaps this
    = strict_neq (Options.generateMipmaps (default DUMMY_OBJECT options))
                 (VBool false)
      && mipmap_filter (resolved_minFilter options)
  ∧ ∃ l, emitted w w'
         = sampler_setup (default DUMMY_OBJECT options)
                         (Some (WebGLObject (fresh w))) ++ l
         ∧ sampler_calls l = [].
Proof.
  intros H. apply new_Texture_inv in H as (width' & height' & ifmt & _ & _ & _ & H).
  rewrite finish_run in H.
  destruct (run_frame [Resize width' height' depth; Data image; Bind 0]
              (initial self binding ifmt is3D options (Some (WebGLObject (fresh w))),
               with_sampler options w)) as (l & Hc & Hs & Hp & Hg).
  rewrite H in Hc, Hp, Hg. simpl in Hc, Hp, Hg.
  split; [done|]. split; [done|].
  exists l. split; [|done]. apply emitted_app. by rewrite Hc, <- app_assoc.
Qed.

Lemma mipmap_filter_spec (minFilter : value) :
  mipmap_filter minFilter = true
  ↔ minFilter = VNum gl.LINEAR_MIPMAP_NEAREST
    ∨ minFilter = VNum gl.LINEAR_MIPMAP_LINEAR.
Proof. unfold mipmap_filter. by rewrite orb_true_iff, !strict_eq_spec. Qed.

(** C6.  Without a [generateMipmaps] option the flag of the constructed
    texture is true exactly when the resolved minification filter is
    [LINEAR_MIPMAP_NEAREST] or [LINEAR_MIPMAP_LINEAR]; with the option
    [false] the flag is false, whatever the filter is. *)
Theorem generateMipmaps_default (self : objref) (binding : value)
    (image : option Image) (width height depth : value) (is3D : bool)
    (options : option Options.t) (w : World) (this : Texture) (w' : World) :
  new_Texture TEXTURE_FORMAT_DEFAULTS self binding image width height depth
              is3D options w = Normal (this, w') →
  (Options.generateMipmaps (default DUMMY_OBJECT options) = VUndefined →
   (Texture.generateMipmaps this = true
    ↔ resolved_minFilter options = VNum gl.LINEAR_MIPMAP_NEAREST
      ∨ resolved_minFilter options = VNum gl.LINEAR_MIPMAP_LINEAR))
  ∧ (Options.generateMipmaps (default DUMMY_OBJECT options) = VBool false →
     Texture.generateMipmaps this = false).
Proof.
  intros H. apply new_Texture_frame in H as (_ & -> & _).
  split; intros ->; [|done].
  rewrite <- mipmap_filter_spec. done.
Qed.

(** C9.  When the resolved minification filter is neither
    [LINEAR_MIPMAP_NEAREST] nor [LINEAR_MIPMAP_LINEAR], the flag of the
    constructed texture is false when the option [generateMipmaps] is
    [true]. *)
Theorem generateMipmaps_true_not_forced (self : objref) (binding : value)
    (image : option Image) (width height depth : value) (is3D : bool)
    (options : option Options.t) (w : World) (this : Texture) (w' : World) :
  new_Texture TEXTURE_FORMAT_DEFAULTS self binding image width height depth
              is3D options w = Normal (this, w') →
  Options.generateMipmaps (default DUMMY_OBJECT options) = VBool true →
  resolved_minFilter options ≠ VNum gl.LINEAR_MIPMAP_NEAREST →
  resolved_minFilter options ≠ VNum gl.LINEAR_MIPMAP_LINEAR →
  Texture.generateMipmaps this = false.
Proof.
  intros H Ho H1 H2. apply new_Texture_frame in H as (_ & -> & _).
  rewrite Ho. simpl. apply not_true_is_false.
  rewrite mipmap_filter_spec. by intros [?|?].
Qed.

Lemma createSampler_calls_app (l k : list glcall) :
  createSampler_calls (l ++ k) = createSampler_calls l ++ createSampler_calls k.
Proof. apply filter_app. Qed.

Lemma createSampler_calls_none (l : list glcall) :
  sampler_calls l = [] → createSampler_calls l = [].
Proof.
  unfold sampler_calls, createSampler_calls.
  induction l as [|c l IH]; [done|].
  rewrite !filter_cons. destruct c; simpl; try done; apply IH.
Qed.

Lemma createSampler_calls_setup (o : Options.t) (sampler : option handle) :
  createSampler_calls (sampler_setup o sampler) = [CreateSampler].
Proof.
  unfold sampler_setup.
  destruct (strict_neq (defined_or (Options.minLOD o) VNull) VNull),
           (strict_neq (defined_or (Options.maxLOD o) VNull) VNull);
    reflexivity.
Qed.

(** C8.  Construction creates one sampler, the one the texture holds;
    after it, whatever sequence of [resize], [data] and [bind] runs, the
    texture holds the same sampler and the context receives no call that
    creates, programs or deletes a sampler. *)
Theorem sampler_fixed_after_construction (self : objref) (binding : value)
    (image : option Image) (width height depth : value) (is3D : bool)
    (options : option Options.t) (w : World) (this : Texture) (w1 : World) :
  new_Texture TEXTURE_FORMAT_DEFAULTS self binding image width height depth
              is3D options w = Normal (this, w1) →
  createSampler_calls (emitted w w1) = [CreateSampler]
  ∧ Texture.sampler this = Some (WebGLObject (fresh w))
  ∧ ∀ ops : list op,
      Texture.sampler (run ops (this, w1)).1 = Texture.sampler this
      ∧ sampler_calls (emitted w1 (run ops (this, w1)).2) = [].
Proof.
  intros H. apply new_Texture_frame in H as (Hs & _ & l & -> & Hl).
  split.
  { rewrite createSampler_calls_app, createSampler_calls_setup.
    by rewrite (createSampler_calls_none l Hl). }
  split; [exact Hs|].
  intros ops. destruct (run_frame ops (this, w1)) as (k & Hc & Hk & Hp & _).
  split; [exact Hp|]. simpl in Hc. by rewrite (emitted_app _ _ _ Hc).
Qed.

Lemma storage_calls_setup (o : Options.t) (sampler : option handle) :
  storage_calls (sampler_setup o sampler) = [].
Proof.
  unfold sampler_setup.
  destruct (strict_neq (defined_or (Options.minLOD o) VNull) VNull),
           (strict_neq (defined_or (Options.maxLOD o) VNull) VNull);
    reflexivity.
Qed.

(** C4, as amended.  Without an image, when [width] and [height] are
    given (truthy) and an internal format is given or the table of
    defaults has a row for the type, construction returns, and the
    texture records the given width and height and the given depth, [0]
    when there is none.  Unless that triple is [(-1, -1, -1)], the
    construction allocates storage of that size and the texture holds
    its handle. *)
Theorem new_without_image (self : objref) (binding : value)
    (width height depth : value) (is3D : bool)
    (options : option Options.t) (w : World) :
  truthy width = true →
  truthy height = true →
  Options.internalFormat (default DUMMY_OBJECT options) ≠ VUndefined
  ∨ is_Some (TEXTURE_FORMAT_DEFAULTS (resolved_type options)) →
  ∃ (this : Texture) (w' : World),
    new_Texture TEXTURE_FORMAT_DEFAULTS self binding None width height depth
                is3D options w = Normal (this, w')
    ∧ Texture.width this = width
    ∧ Texture.height this = height
    ∧ Texture.depth this = or_else depth (VNum 0)
    ∧ (¬ (width = VNum (-1) ∧ height = VNum (-1)
          ∧ or_else depth (VNum 0) = VNum (-1)) →
       is_Some (Texture.texture this)
       ∧ ∃ levels : number,
           storage_calls (emitted w w')
           = [if is3D
              then TexStorage3D binding levels (Texture.internalFormat this)
                     width height (or_else depth (VNum 0))
              else TexStorage2D binding levels (Texture.internalFormat this)
                     width height]).
Proof.
  intros Hw Hh Hf. rewrite new_Texture_unfold. unfold or_prop.
  rewrite Hw, Hh. simpl.
  assert (∃ ifmt, resolve_internalFormat TEXTURE_FORMAT_DEFAULTS options
                  = Normal ifmt) as [ifmt ->].
  { unfold resolve_internalFormat, strict_neq.
    destruct (strict_eq _ VUndefined) eqn:E; simpl; [|eauto].
    destruct Hf as [Hf|[row ->]]; [|simpl; eauto].
    by apply strict_eq_spec in E. }
  simpl.
  set (this0 := initial self binding ifmt is3D options
                        (Some (WebGLObject (fresh w)))).
  destruct (finish_spec None width height depth this0 (with_sampler options w))
    as (w' & -> & Hc & _).
  eexists _, w'. split; [reflexivity|].
  destruct (resize_has_size this0 (with_sampler options w) width height depth)
    as (H1 & H2 & H3).
  split; [exact H1|]. split; [exact H2|]. split; [exact H3|].
  intros Hne.
  assert (Hn : ¬ has_size this0 width height depth).
  { intros (E1 & E2 & E3). apply Hne. by rewrite <- E1, <- E2, <- E3. }
  destruct (resize_differs this0 (with_sampler options w) width height depth Hn)
    as (w1 & Hr & Hc1 & _).
  rewrite Hr in Hc |- *. simpl in Hc |- *. split; [eauto|].
  exists (levels (resized width height depth this0 (with_sampler options w))).
  rewrite (emitted_app w w'
             (sampler_setup (default DUMMY_OBJECT options)
                            (Some (WebGLObject (fresh w)))
              ++ resize_calls width height depth this0 (with_sampler options w)
              ++ [ActiveTexture (gl.TEXTURE0 + 0);
                  BindTexture binding (Some (WebGLObject (S (fresh w))));
                  BindSampler 0 (Some (WebGLObject (fresh w)))])).
  - rewrite !storage_calls_app, storage_calls_setup, storage_calls_resize.
    reflexivity.
  - rewrite Hc, Hc1. unfold with_sampler at 1. cbn [calls].
    by rewrite <- !app_assoc.
Qed.

End ConstructorProperties.

(** C4, as stated, fails: with neither an image nor a width, line 46
    reads [image.width] on an absent image. *)
Lemma new_without_image_and_size_throws :
  new_Texture table0 7%nat (VNum gl.TEXTURE_2D) None VUndefined VUndefined
              VNull false None world0 = Throw TypeError
  ∧ new_Texture table0 7%nat (VNum gl.TEXTURE_2D) None (VNum 100) VUndefined
                VNull false None world0 = Throw TypeError.
Proof. split; reflexivity. Qed.

Lemma new_without_image_witness :
  truthy (VNum 100) = true
  ∧ truthy (VNum 50) = true
  ∧ is_Some (table0 (resolved_type None))
  ∧ ∃ (this : Texture) (w' : World),
      new_Texture table0 7%nat (VNum gl.TEXTURE_2D) None (VNum 100) (VNum 50)
                  VNull false None world0 = Normal (this, w')
      ∧ Texture.width this = VNum 100
      ∧ Texture.height this = VNum 50
      ∧ Texture.depth this = VNum 0
      ∧ is_Some (Texture.texture this).
Proof.
  assert (Ht : is_Some (table0 (resolved_type None))) by (eexists; reflexivity).
  split; [reflexivity|]. split; [reflexivity|]. split; [exact Ht|].
  destruct (new_without_image table0 7%nat (VNum gl.TEXTURE_2D)
              (VNum 100) (VNum 50) VNull false None world0
              eq_refl eq_refl (or_intror Ht))
    as (this & w' & Hn & Hw & Hh & Hd & Hs).
  exists this, w'. split; [exact Hn|]. split; [exact Hw|]. split; [exact Hh|].
  split; [exact Hd|].
  apply Hs. intros [E _]. discriminate E.
Defined.

(** The two other ways a construction without an image departs from an
    allocation: a type without a row in the table of defaults, and the
    triple that the fields hold before the first allocation. *)
Example new_unknown_type_throws :
  new_Texture (λ _, None) 7%nat (VNum gl.TEXTURE_2D) None (VNum 100) (VNum 50)
              VNull false None world0 = Throw TypeError.
Proof. reflexivity. Qed.

Example new_sentinel_size_allocates_nothing :
  ∃ this w',
    new_Texture table0 7%nat (VNum gl.TEXTURE_2D) None (VNum (-1)) (VNum (-1))
                (VNum (-1)) false None world0 = Normal (this, w')
    ∧ Texture.texture this = None
    ∧ storage_calls (emitted world0 w') = [].
Proof. eexists _, _. repeat split. Qed.

Lemma generateMipmaps_default_witness :
  (new_Texture table0 7%nat (VNum gl.TEXTURE_2D) None (VNum 100) (VNum 50)
               VNull false None world0 = Normal (sample2D, sample_world)
   ∧ Options.generateMipmaps (default DUMMY_OBJECT None) = VUndefined
   ∧ (Texture.generateMipmaps sample2D = true
      ↔ resolved_minFilter None = VNum gl.LINEAR_MIPMAP_NEAREST
        ∨ resolved_minFilter None = VNum gl.LINEAR_MIPMAP_LINEAR))
  ∧ ∃ this w',
      new_Texture table0 7%nat (VNum gl.TEXTURE_2D) None (VNum 100) (VNum 50)
                  VNull false (Some options_no_mipmaps) world0
      = Normal (this, w')
      ∧ Options.generateMipmaps (default DUMMY_OBJECT (Some options_no_mipmaps))
        = VBool false
      ∧ Texture.generateMipmaps this = false.
Proof.
  split.
  - split; [reflexivity|]. split; [reflexivity|].
    exact (proj1 (generateMipmaps_default table0 _ _ _ _ _ _ _ _ _ _ _
                    new_100x50) eq_refl).
  - destruct (new_Texture table0 7%nat (VNum gl.TEXTURE_2D) None (VNum 100)
                (VNum 50) VNull false (Some options_no_mipmaps) world0)
      as [[this w']|e] eqn:E; [|vm_compute in E; discriminate E].
    exists this, w'. split; [reflexivity|]. split; [reflexivity|].
    exact (proj2 (generateMipmaps_default table0 _ _ _ _ _ _ _ _ _ _ _ E)
                 eq_refl).
Defined.

Lemma generateMipmaps_true_not_forced_witness :
  ∃ this w',
    new_Texture table0 7%nat (VNum gl.TEXTURE_2D) None (VNum 100) (VNum 50)
                VNull false (Some options_nearest_mipmaps) world0
    = Normal (this, w')
    ∧ Options.generateMipmaps
        (default DUMMY_OBJECT (Some options_nearest_mipmaps)) = VBool true
    ∧ resolved_minFilter (Some options_nearest_mipmaps)
      ≠ VNum gl.LINEAR_MIPMAP_NEAREST
    ∧ resolved_minFilter (Some options_nearest_mipmaps)
      ≠ VNum gl.LINEAR_MIPMAP_LINEAR
    ∧ Texture.generateMipmaps this = false.
Proof.
  destruct (new_Texture table0 7%nat (VNum gl.TEXTURE_2D) None (VNum 100)
              (VNum 50) VNull false (Some options_nearest_mipmaps) world0)
    as [[this w']|e] eqn:E; [|vm_compute in E; discriminate E].
  assert (H1 : resolved_minFilter (Some options_nearest_mipmaps)
               ≠ VNum gl.LINEAR_MIPMAP_NEAREST) by (intros H; discriminate H).
  assert (H2 : resolved_minFilter (Some options_nearest_mipmaps)
               ≠ VNum gl.LINEAR_MIPMAP_LINEAR) by (intros H; discriminate H).
  exists this, w'. split; [reflexivity|]. split; [reflexivity|].
  split; [exact H1|]. split; [exact H2|].
  exact (generateMipmaps_true_not_forced table0 _ _ _ _ _ _ _ _ _ _ _
           E eq_refl H1 H2).
Defined.

Lemma sampler_fixed_after_construction_witness :
  new_Texture table0 7%nat (VNum gl.TEXTURE_2D) None (VNum 100) (VNum 50)
              VNull false None world0 = Normal (sample2D, sample_world)
  ∧ createSampler_calls (emitted world0 sample_world) = [CreateSampler]
  ∧ Texture.sampler
      (run [Resize (VNum 256) (VNum 256) VNull;
            Data (Some {| img_width := VNum 256; img_height := VNum 256 |});
            Bind 3] (sample2D, sample_world)).1
    = Some (WebGLObject 0)
  ∧ sampler_calls
      (emitted sample_world
         (run [Resize (VNum 256) (VNum 256) VNull;
               Data (Some {| img_width := VNum 256; img_height := VNum 256 |});
               Bind 3] (sample2D, sample_world)).2) = [].
Proof.
  destruct (sampler_fixed_after_construction table0 _ _ _ _ _ _ _ _ _ _ _
              new_100x50) as (H1 & _ & H3).
  destruct (H3 [Resize (VNum 256) (VNum 256) VNull;
                Data (Some {| img_width := VNum 256; img_height := VNum 256 |});
                Bind 3]) as (Ha & Hb).
  split; [reflexivity|]. split; [exact H1|]. split; [exact Ha | exact Hb].
Defined.

(** ** The handles of a texture come from the context *)

Lemma new_Texture_owned (table : value → option (value → value))
    (self : objref) (binding : value) (image : option Image)
    (width height depth : value) (is3D : bool) (options : option Options.t)
    (w : World) (this : Texture) (w' : World) :
  new_Texture table self binding image width height depth is3D options w
  = Normal (this, w') →
  owned this w'.
Proof.
  intros H.
  apply new_Texture_inv in H as (width' & height' & ifmt & _ & _ & _ & H).
  set (this0 := initial self binding ifmt is3D options
                        (Some (WebGLObject (fresh w)))) in H.
  assert (Ho : owned this0 (with_sampler options w)) by (split; simpl; lia).
  apply (resize_owned _ _ width' height' depth) in Ho.
  destruct (finish_spec image width' height' depth this0 (with_sampler options w))
    as (w2 & E & _ & Hf).
  rewrite E in H. injection H as <- <-.
  destruct Ho as [Ht Hs]. split; (eapply issued_mono; [|eassumption]); lia.
Qed.

Lemma step_owned (s : Texture * World) (o : op) :
  owned s.1 s.2 → owned (step s o).1 (step s o).2.
Proof.
  destruct s as [this w], o as [width height depth|d|unit]; cbn [step fst snd].
  - apply resize_owned.
  - destruct (data_spec d this w) as (w' & -> & _ & Hf & _).
    intros [Ht Hs]. split; (eapply issued_mono; [|eassumption]); simpl; lia.
  - destruct (bind_spec unit this w) as (w' & -> & _ & Hf & _).
    intros [Ht Hs]. split; (eapply issued_mono; [|eassumption]); simpl; lia.
Qed.

Lemma delete_owned (this : Texture) (w : World) :
  owned this w → owned (delete this w).1 (delete this w).2.
Proof. unfold delete. by destruct (Texture.texture this). Qed.

(** ** Sessions *)

Lemma run_session (ops : list op) (s : Texture * World) :
  run ops s = session (Call <$> ops) s.
Proof.
  revert s. induction ops as [|o ops IH]; intros s; [done|]. apply IH.
Qed.

Lemma session_app (ms ns : list method) (s : Texture * World) :
  session (ms ++ ns) s = session ns (session ms s).
Proof. apply foldl_app. Qed.

(** What a call of a method can do: nothing; or reallocate; or issue
    calls that create and delete nothing and leave the object alone; or
    release the texture and the sampler. *)
Lemma invoke_cases (this : Texture) (w : World) (m : method) :
  invoke (this, w) m = (this, w)
  ∨ (∃ width height depth w',
       ¬ has_size this width height depth
       ∧ invoke (this, w) m = (resized width height depth this w, w')
       ∧ calls w' = calls w ++ resize_calls width height depth this w
       ∧ fresh w' = S (fresh w))
  ∨ (∃ k w',
       invoke (this, w) m = (this, w')
       ∧ calls w' = calls w ++ k
       ∧ fresh w' = fresh w
       ∧ storage_calls k = []
       ∧ tracked (objects_of this w) k = objects_of this w)
  ∨ (∃ h w',
       Texture.texture this = Some h
       ∧ invoke (this, w) m
         = (Texture.set_sampler None (Texture.set_texture None this), w')
       ∧ calls w' = calls w ++ [DeleteTexture (Some h);
                                DeleteSampler (Texture.sampler this)]
       ∧ fresh w' = fresh w).
Proof.
  destruct m as [[width height depth|d|unit]|]; cbn [invoke step fst snd].
  - destruct (decide (has_size this width height depth)) as [H|H].
    + left. by apply resize_same.
    + right; left.
      destruct (resize_differs this w width height depth H)
        as (w' & Hr & Hc & Hf & _).
      by exists width, height, depth, w'.
  - right; right; left.
    destruct (data_spec d this w) as (w' & Hr & Hc & Hf & _).
    exists (data_calls d this), w'. repeat split; try done.
    + destruct d; [|done]. unfold data_calls.
      by destruct (Texture.is3D this), (Texture.generateMipmaps this).
    + destruct d; [|done]. unfold data_calls.
      by destruct (Texture.is3D this), (Texture.generateMipmaps this).
  - right; right; left.
    destruct (bind_spec unit this w) as (w' & Hr & Hc & Hf & _).
    eexists _, w'. repeat split; done.
  - unfold delete. destruct (Texture.texture this) as [h|] eqn:E; [|by left].
    right; right; right. eexists h, _. split; [done|]. split; [done|].
    simpl. by rewrite <- app_assoc.
Qed.

Lemma invoke_config (s : Texture * World) (m : method) :
  config (invoke s m).1 = config s.1.
Proof.
  destruct s as [this w].
  destruct (invoke_cases this w m)
    as [-> | [(width & height & depth & w' & _ & -> & _)
           | [(k & w' & -> & _) | (h & w' & _ & -> & _)]]]; done.
Qed.

Lemma session_config (ms : list method) (s : Texture * World) :
  config (session ms s).1 = config s.1.
Proof.
  revert s. induction ms as [|m ms IH]; intros s; [done|].
  unfold session in *. simpl. by rewrite IH, invoke_config.
Qed.

Lemma new_Texture_config (table : value → option (value → value))
    (self : objref) (binding : value) (image : option Image)
    (width height depth : value) (is3D : bool) (options : option Options.t)
    (w : World) (this : Texture) (w' : World) :
  new_Texture table self binding image width height depth is3D options w
  = Normal (this, w') →
  ∃ internalFormat,
    resolve_internalFormat table options = Normal internalFormat
    ∧ config this
      = config (initial self binding internalFormat is3D options
                        (Some (WebGLObject (fresh w)))).
Proof.
  intros H.
  apply new_Texture_inv in H as (width' & height' & ifmt & _ & _ & Hi & H).
  exists ifmt. split; [exact Hi|].
  rewrite finish_run, run_session in H.
  change this with (this, w').1. rewrite <- H. apply session_config.
Qed.

(** X4.  The binding target and the shape given to the constructor, and
    the flip, level and mipmap settings and the pixel layout it resolves,
    are never assigned again: after any sequence of [resize], [data],
    [bind] and [delete] on the constructed texture they are what the
    constructor made them. *)
Theorem config_immutable (table : value → option (value → value))
    (self : objref) (binding : value) (image : option Image)
    (width height depth : value) (is3D : bool) (options : option Options.t)
    (w : World) (this : Texture) (w1 : World) (ms : list method) :
  new_Texture table self binding image width height depth is3D options w
  = Normal (this, w1) →
  let t := (session ms (this, w1)).1 in
  config t = config this
  ∧ Texture.self t = self
  ∧ Texture.binding t = binding
  ∧ Texture.is3D t = is3D
  ∧ Texture.flipY t
    = defined_or (Options.flipY (default DUMMY_OBJECT options)) (VBool false)
  ∧ Texture.baseLevel t
    = defined_or (Options.baseLevel (default DUMMY_OBJECT options)) VNull
  ∧ Texture.maxLevel t
    = defined_or (Options.maxLevel (default DUMMY_OBJECT options)) VNull.
Proof.
  intros H t.
  pose proof (session_config ms (this, w1)) as Hc. fold t in Hc.
  apply new_Texture_config in H as (ifmt & _ & H).
  cbn [fst] in Hc. rewrite H in Hc. split; [by rewrite H|].
  unfold config in Hc. simpl in Hc. by simplify_eq.
Qed.

Lemma config_immutable_witness :
  new_Texture table0 7%nat (VNum gl.TEXTURE_2D) None (VNum 100) (VNum 50)
              VNull false None world0 = Normal (sample2D, sample_world)
  ∧ config (session [Call (Resize (VNum 8) (VNum 8) VNull); Delete;
                     Call (Data (Some image64x32))]
                    (sample2D, sample_world)).1
    = config sample2D.
Proof.
  split; [reflexivity|].
  exact (proj1 (config_immutable table0 _ _ _ _ _ _ _ _ _ _ _
                  [Call (Resize (VNum 8) (VNum 8) VNull); Delete;
                   Call (Data (Some image64x32))] new_100x50)).
Defined.

Lemma tracked_app (o : objects) (l k : list glcall) :
  tracked o (l ++ k) = tracked (tracked o l) k.
Proof. apply foldl_app. Qed.

Lemma tracked_resize (width height depth : value) (this : Texture)
    (w w' : World) :
  fresh w' = S (fresh w) →
  tracked (objects_of this w) (resize_calls width height depth this w)
  = objects_of (resized width height depth this w) w'.
Proof.
  intros Hf. unfold resize_calls, objects_of, tracked. rewrite Hf.
  destruct (strict_neq (Texture.baseLevel this) VNull),
           (strict_neq (Texture.maxLevel this) VNull),
           (Texture.is3D this); simpl;
    by rewrite difference_diag_L, (right_id_L ∅ (∪)).
Qed.

Lemma storage_of_resized (width height depth : value) (this : Texture)
    (w : World) :
  last (storage_calls (resize_calls width height depth this w))
  = Some (storage_of (resized width height depth this w)).
Proof. rewrite storage_calls_resize. by destruct this as [? ? ? ? ? ? ? ? ? []]. Qed.

Lemma invoke_consistent (w0 : World) (this : Texture) (w : World) (m : method) :
  consistent w0 this w →
  consistent w0 (invoke (this, w) m).1 (invoke (this, w) m).2.
Proof.
  intros (l & Hl & Hs & Ht).
  destruct (invoke_cases this w m)
    as [-> | [(width & height & depth & w' & _ & -> & Hc & Hf)
           | [(k & w' & -> & Hc & Hf & Hk & Hk') | (h & w' & E & -> & Hc & Hf)]]];
    cbn [fst snd].
  - by exists l.
  - exists (l ++ resize_calls width height depth this w).
    split; [by rewrite Hc, Hl, app_assoc|]. split.
    + intros _. rewrite storage_calls_app.
      pose proof (storage_of_resized width height depth this w) as Hr.
      rewrite storage_calls_resize in Hr |- *. by rewrite last_snoc.
    + rewrite tracked_app, Ht. by apply tracked_resize.
  - exists (l ++ k). split; [by rewrite Hc, Hl, app_assoc|]. split.
    + intros H. by rewrite storage_calls_app, Hk, app_nil_r, Hs.
    + rewrite tracked_app, Ht, Hk'. unfold objects_of. by rewrite Hf.
  - eexists. split; [by rewrite Hc, Hl, <- app_assoc|]. split.
    + simpl. by intros [? [=]].
    + rewrite tracked_app, Ht. unfold objects_of, tracked. rewrite E, Hf.
      simpl. by rewrite !difference_diag_L.
Qed.

Lemma session_consistent (w0 : World) (ms : list method) (s : Texture * World) :
  consistent w0 s.1 s.2 → consistent w0 (session ms s).1 (session ms s).2.
Proof.
  revert s. induction ms as [|m ms IH]; intros [this w] H; [done|].
  apply (IH (invoke (this, w) m)), invoke_consistent, H.
Qed.

Lemma new_Texture_consistent (table : value → option (value → value))
    (self : objref) (binding : value) (image : option Image)
    (width height depth : value) (is3D : bool) (options : option Options.t)
    (w : World) (this : Texture) (w' : World) :
  new_Texture table self binding image width height depth is3D options w
  = Normal (this, w') →
  consistent w this w'.
Proof.
  intros H.
  apply new_Texture_inv in H as (width' & height' & ifmt & _ & _ & _ & H).
  rewrite finish_run, run_session in H.
  change this with (this, w').1. change w' with (this, w').2 at 2.
  rewrite <- H. apply session_consistent. cbn [fst snd].
  exists (sampler_setup (default DUMMY_OBJECT options)
                        (Some (WebGLObject (fresh w)))).
  split; [done|]. split; [by intros [? [=]]|].
  unfold sampler_setup, tracked, objects_of, no_objects.
  destruct (strict_neq (defined_or (Options.minLOD _) VNull) VNull),
           (strict_neq (defined_or (Options.maxLOD _) VNull) VNull);
    simpl; by rewrite (right_id_L ∅ (∪)).
Qed.

Lemma consistent_emitted (w0 : World) (this : Texture) (w : World) :
  consistent w0 this w →
  (is_Some (Texture.texture this) →
   last (storage_calls (emitted w0 w)) = Some (storage_of this))
  ∧ tracked (no_objects (fresh w0)) (emitted w0 w) = objects_of this w.
Proof. intros (l & Hl & Hs & Ht). by rewrite (emitted_app _ _ _ Hl). Qed.

(** X5.  Ever since its construction, through any sequence of [resize],
    [data], [bind] and [delete], a texture that holds a handle records
    the size of the latest storage allocation: that allocation is the
    one its binding target, level count, internal format, width, height
    and depth stand for. *)
Theorem recorded_size_is_allocated (table : value → option (value → value))
    (self : objref) (binding : value) (image : option Image)
    (width height depth : value) (is3D : bool) (options : option Options.t)
    (w : World) (this : Texture) (w1 : World) (ms : list method) :
  new_Texture table self binding image width height depth is3D options w
  = Normal (this, w1) →
  is_Some (Texture.texture (session ms (this, w1)).1) →
  last (storage_calls (emitted w (session ms (this, w1)).2))
  = Some (storage_of (session ms (this, w1)).1).
Proof.
  intros H. apply new_Texture_consistent in H.
  apply (session_consistent w ms (this, w1)) in H.
  by apply consistent_emitted in H as [H _].
Qed.

Lemma recorded_size_is_allocated_witness :
  new_Texture table0 7%nat (VNum gl.TEXTURE_2D) None (VNum 100) (VNum 50)
              VNull false None world0 = Normal (sample2D, sample_world)
  ∧ is_Some (Texture.texture
      (session [Call (Resize (VNum 8) (VNum 8) VNull); Delete;
                Call (Resize (VNum 64) (VNum 32) VNull); Call (Bind 2)]
               (sample2D, sample_world)).1)
  ∧ last (storage_calls (emitted world0
      (session [Call (Resize (VNum 8) (VNum 8) VNull); Delete;
                Call (Resize (VNum 64) (VNum 32) VNull); Call (Bind 2)]
               (sample2D, sample_world)).2))
    = Some (TexStorage2D (VNum gl.TEXTURE_2D) (Int 7) (VNum gl.RGBA8)
                         (VNum 64) (VNum 32)).
Proof.
  assert (Hs : is_Some (Texture.texture
      (session [Call (Resize (VNum 8) (VNum 8) VNull); Delete;
                Call (Resize (VNum 64) (VNum 32) VNull); Call (Bind 2)]
               (sample2D, sample_world)).1)) by (eexists; reflexivity).
  split; [reflexivity|]. split; [exact Hs|].
  exact (recorded_size_is_allocated table0 _ _ _ _ _ _ _ _ _ _ _ _
           new_100x50 Hs).
Defined.

(** X6.  Ever since its construction, through any sequence of [resize],
    [data], [bind] and [delete], the textures and samplers created on
    the context and not deleted are the handles that the texture holds:
    [resize] leaves no texture behind and nothing is deleted twice. *)
Theorem objects_accounted (table : value → option (value → value))
    (self : objref) (binding : value) (image : option Image)
    (width height depth : value) (is3D : bool) (options : option Options.t)
    (w : World) (this : Texture) (w1 : World) (ms : list method) :
  new_Texture table self binding image width height depth is3D options w
  = Normal (this, w1) →
  tracked (no_objects (fresh w)) (emitted w (session ms (this, w1)).2)
  = objects_of (session ms (this, w1)).1 (session ms (this, w1)).2.
Proof.
  intros H. apply new_Texture_consistent in H.
  apply (session_consistent w ms (this, w1)) in H.
  by apply consistent_emitted in H as [_ H].
Qed.

Lemma objects_accounted_witness :
  new_Texture table0 7%nat (VNum gl.TEXTURE_2D) None (VNum 100) (VNum 50)
              VNull false None world0 = Normal (sample2D, sample_world)
  ∧ tracked (no_objects 0)
      (emitted world0
         (session [Call (Resize (VNum 8) (VNum 8) VNull);
                   Call (Resize (VNum 64) (VNum 32) VNull)]
                  (sample2D, sample_world)).2)
    = {| next_name := 4; live_textures := {[ 3%nat ]};
         live_samplers := {[ 0%nat ]} |}.
Proof.
  split; [reflexivity|].
  exact (objects_accounted table0 _ _ _ _ _ _ _ _ _ _ _
           [Call (Resize (VNum 8) (VNum 8) VNull);
            Call (Resize (VNum 64) (VNum 32) VNull)] new_100x50).
Defined.

(** X7.  A [delete] on a texture that holds a handle, after construction
    and any sequence of [resize], [data], [bind] and [delete], leaves no
    texture and no sampler of it alive on the context. *)
Theorem delete_releases_all (table : value → option (value → value))
    (self : objref) (binding : value) (image : option Image)
    (width height depth : value) (is3D : bool) (options : option Options.t)
    (w : World) (this : Texture) (w1 : World) (ms : list method) :
  new_Texture table self binding image width height depth is3D options w
  = Normal (this, w1) →
  is_Some (Texture.texture (session ms (this, w1)).1) →
  let o := tracked (no_objects (fresh w))
             (emitted w (session (ms ++ [Delete]) (this, w1)).2) in
  live_textures o = ∅ ∧ live_samplers o = ∅.
Proof.
  intros H [h Hh] o. subst o.
  apply new_Texture_consistent in H.
  apply (session_consistent w (ms ++ [Delete]) (this, w1)) in H.
  apply consistent_emitted in H as [_ ->].
  rewrite session_app. destruct (session ms (this, w1)) as [t w2].
  simpl in Hh |- *. unfold delete. by rewrite Hh.
Qed.

Lemma delete_releases_all_witness :
  new_Texture table0 7%nat (VNum gl.TEXTURE_2D) None (VNum 100) (VNum 50)
              VNull false None world0 = Normal (sample2D, sample_world)
  ∧ is_Some (Texture.texture
      (session [Call (Resize (VNum 8) (VNum 8) VNull)]
               (sample2D, sample_world)).1)
  ∧ live_textures (tracked (no_objects 0)
      (emitted world0
         (session ([Call (Resize (VNum 8) (VNum 8) VNull)] ++ [Delete])
                  (sample2D, sample_world)).2)) = ∅
  ∧ live_samplers (tracked (no_objects 0)
      (emitted world0
         (session ([Call (Resize (VNum 8) (VNum 8) VNull)] ++ [Delete])
                  (sample2D, sample_world)).2)) = ∅.
Proof.
  assert (Hs : is_Some (Texture.texture
      (session [Call (Resize (VNum 8) (VNum 8) VNull)]
               (sample2D, sample_world)).1)) by (eexists; reflexivity).
  split; [reflexivity|]. split; [exact Hs|].
  exact (delete_releases_all table0 _ _ _ _ _ _ _ _ _ _ _
           [Call (Resize (VNum 8) (VNum 8) VNull)] new_100x50 Hs).
Defined.

(** ** Construction: errors and resolved values *)

(** X1.  With an image, a construction whose internal format resolves
    returns: the recorded width is the [width] argument when it is truthy
    and the image's width otherwise, likewise the height, the depth is
    the [depth] argument or [0], and the image is uploaded at that
    size. *)
Theorem new_size_from_image (table : value → option (value → value))
    (self : objref) (binding : value) (img : Image)
    (width height depth : value) (is3D : bool) (options : option Options.t)
    (w : World) (internalFormat : value) :
  resolve_internalFormat table options = Normal internalFormat →
  ∃ (this : Texture) (w' : World),
    new_Texture table self binding (Some img) width height depth is3D options w
    = Normal (this, w')
    ∧ Texture.width this = or_else width (img_width img)
    ∧ Texture.height this = or_else height (img_height img)
    ∧ Texture.depth this = or_else depth (VNum 0)
    ∧ (if is3D
       then TexSubImage3D binding 0 0 0 0
              (or_else width (img_width img)) (or_else height (img_height img))
              (or_else depth (VNum 0))
              (resolved_format options) (resolved_type options) img
       else TexSubImage2D binding 0 0 0
              (or_else width (img_width img)) (or_else height (img_height img))
              (resolved_format options) (resolved_type options) img)
      ∈ emitted w w'.
Proof.
  intros Hi. rewrite new_Texture_unfold, Hi. unfold or_prop, get_prop.
  assert (Hw : (if truthy width then Normal width else Normal (img_width img))
               = Normal (or_else width (img_width img)))
    by (unfold or_else; by destruct (truthy width)).
  assert (Hh : (if truthy height then Normal height else Normal (img_height img))
               = Normal (or_else height (img_height img)))
    by (unfold or_else; by destruct (truthy height)).
  rewrite Hw, Hh. simpl.
  set (W := or_else width (img_width img)).
  set (H := or_else height (img_height img)).
  set (this0 := initial self binding internalFormat is3D options
                        (Some (WebGLObject (fresh w)))).
  destruct (finish_spec (Some img) W H depth this0 (with_sampler options w))
    as (w' & -> & Hc & _).
  destruct (resize_has_size this0 (with_sampler options w) W H depth)
    as (H1 & H2 & H3).
  eexists _, w'. split; [reflexivity|].
  split; [exact H1|]. split; [exact H2|]. split; [exact H3|].
  set (r := resize W H depth this0 (with_sampler options w)) in *.
  assert (Hcfg : config r.1 = config this0)
    by apply (invoke_config (this0, with_sampler options w)
                            (Call (Resize W H depth))).
  unfold config in Hcfg. simpl in Hcfg.
  injection Hcfg as _ Hb Hfm Hty _ H3D _ _ _ _.
  assert (∃ l, calls r.2 = calls w ++ l) as [l Hl].
  { destruct (step_frame (this0, with_sampler options w) (Resize W H depth))
      as (k & Hk & _). cbn [step fst snd] in Hk. fold r in Hk.
    eexists. rewrite Hk. unfold with_sampler. cbn [calls].
    by rewrite <- app_assoc. }
  rewrite Hl, <- app_assoc in Hc. rewrite (emitted_app _ _ _ Hc).
  apply elem_of_app; right. apply elem_of_app; left.
  unfold data_calls. rewrite H3D, Hb, Hfm, Hty, H1, H2, H3.
  apply elem_of_app; left. apply list_elem_of_singleton.
  reflexivity.
Qed.

Lemma new_size_from_image_witness :
  resolve_internalFormat table0 None = Normal (VNum gl.RGBA8)
  ∧ ∃ (this : Texture) (w' : World),
      new_Texture table0 7%nat (VNum gl.TEXTURE_2D) (Some image64x32)
                  VUndefined (VNum 16) VUndefined false None world0
      = Normal (this, w')
      ∧ Texture.width this = VNum 64
      ∧ Texture.height this = VNum 16
      ∧ Texture.depth this = VNum 0.
Proof.
  split; [reflexivity|].
  destruct (new_size_from_image table0 7%nat (VNum gl.TEXTURE_2D) image64x32
              VUndefined (VNum 16) VUndefined false None world0
              (VNum gl.RGBA8) eq_refl)
    as (this & w' & Hn & Hw & Hh & Hd & _).
  exists this, w'. split; [exact Hn|]. split; [exact Hw|].
  split; [exact Hh | exact Hd].
Defined.

Lemma resolve_internalFormat_throws (table : value → option (value → value))
    (options : option Options.t) :
  resolve_internalFormat table options = Throw TypeError
  ↔ Options.internalFormat (default DUMMY_OBJECT options) = VUndefined
    ∧ table (resolved_type options) = None.
Proof.
  unfold resolve_internalFormat, strict_neq, get_prop.
  destruct (strict_eq _ VUndefined) eqn:E; simpl.
  - apply strict_eq_spec in E.
    destruct (table (resolved_type options)); split; try done.
    by intros [_ ?].
  - split; [done|]. intros [E' _]. apply strict_eq_spec in E'. congruence.
Qed.

(** X2.  The constructor throws, a [TypeError], in these cases and no
    others: there is no image and [width] or [height] is falsy (absent,
    [null] or [0]); or no internal format is given and the table of
    defaults has no row for the type.  In every other case it returns a
    texture. *)
Theorem new_Texture_throws_iff (table : value → option (value → value))
    (self : objref) (binding : value) (image : option Image)
    (width height depth : value) (is3D : bool) (options : option Options.t)
    (w : World) :
  (new_Texture table self binding image width height depth is3D options w
   = Throw TypeError
   ↔ (image = None ∧ (truthy width = false ∨ truthy height = false))
     ∨ (Options.internalFormat (default DUMMY_OBJECT options) = VUndefined
        ∧ table (resolved_type options) = None))
  ∧ (new_Texture table self binding image width height depth is3D options w
     ≠ Throw TypeError
     → ∃ this w',
         new_Texture table self binding image width height depth is3D options w
         = Normal (this, w')).
Proof.
  split.
  - rewrite <- resolve_internalFormat_throws, new_Texture_unfold.
    unfold or_prop, get_prop.
    destruct (resolve_internalFormat table options) as [ifmt|[]],
             image as [img|], (truthy width), (truthy height); simpl;
      split; intros H; try done; try (by right); try (by left; auto);
      destruct H as [[E [?|?]]|?]; done.
  - destruct (new_Texture _ _ _ _ _ _ _ _ _ _) as [[this w']|[]]; [eauto|done].
Qed.

Lemma new_Texture_throws_iff_witness :
  new_Texture table0 7%nat (VNum gl.TEXTURE_2D) (Some image64x32)
              VUndefined VUndefined VNull false None world0 ≠ Throw TypeError
  ∧ ∃ this w',
      new_Texture table0 7%nat (VNum gl.TEXTURE_2D) (Some image64x32)
                  VUndefined VUndefined VNull false None world0
      = Normal (this, w').
Proof.
  assert (H : new_Texture table0 7%nat (VNum gl.TEXTURE_2D) (Some image64x32)
                VUndefined VUndefined VNull false None world0 ≠ Throw TypeError)
    by (intros E; vm_compute in E; discriminate E).
  split; [exact H|].
  exact (proj2 (new_Texture_throws_iff table0 7%nat (VNum gl.TEXTURE_2D)
                  (Some image64x32) VUndefined VUndefined VNull false None
                  world0) H).
Defined.

(** X3.  A constructed texture has the format and type of the options,
    [RGBA] and [UNSIGNED_BYTE] by default.  Its internal format is the
    option [internalFormat] as given whenever there is one, whatever the
    table of defaults holds, and otherwise the entry of the table for
    that type and format. *)
Theorem new_internalFormat (table : value → option (value → value))
    (self : objref) (binding : value) (image : option Image)
    (width height depth : value) (is3D : bool) (options : option Options.t)
    (w : World) (this : Texture) (w' : World) :
  new_Texture table self binding image width height depth is3D options w
  = Normal (this, w') →
  Texture.format this
  = defined_or (Options.format (default DUMMY_OBJECT options)) (VNum gl.RGBA)
  ∧ Texture.type this
    = defined_or (Options.type (default DUMMY_OBJECT options))
                 (VNum gl.UNSIGNED_BYTE)
  ∧ (Options.internalFormat (default DUMMY_OBJECT options) ≠ VUndefined →
     Texture.internalFormat this
     = Options.internalFormat (default DUMMY_OBJECT options))
  ∧ (Options.internalFormat (default DUMMY_OBJECT options) = VUndefined →
     ∃ row, table (Texture.type this) = Some row
            ∧ Texture.internalFormat this = row (Texture.format this)).
Proof.
  intros H. apply new_Texture_config in H as (ifmt & Hi & H).
  unfold config in H. simpl in H.
  injection H as _ _ Hf Ht Hif _ _ _ _ _.
  rewrite Hf, Ht, Hif. split; [done|]. split; [done|].
  unfold resolve_internalFormat, strict_neq, get_prop in Hi.
  destruct (strict_eq _ VUndefined) eqn:E; simpl in Hi.
  - apply strict_eq_spec in E. split; [done|]. intros _.
    destruct (table (resolved_type options)) as [row|]; [|done].
    exists row. split; [done|]. by injection Hi as <-.
  - injection Hi as <-. split; [done|].
    intros E'. apply strict_eq_spec in E'. congruence.
Qed.

Lemma new_internalFormat_witness :
  (new_Texture table0 7%nat (VNum gl.TEXTURE_2D) None (VNum 100) (VNum 50)
               VNull false None world0 = Normal (sample2D, sample_world)
   ∧ Options.internalFormat (default DUMMY_OBJECT None) = VUndefined
   ∧ ∃ row, table0 (Texture.type sample2D) = Some row
            ∧ Texture.internalFormat sample2D = row (Texture.format sample2D))
  ∧ ∃ this w',
      new_Texture table0 7%nat (VNum gl.TEXTURE_2D) None (VNum 100) (VNum 50)
                  VNull false (Some options_float) world0 = Normal (this, w')
      ∧ table0 (VNum 0x1406) = None
      ∧ Texture.type this = VNum 0x1406
      ∧ Texture.internalFormat this = VNum 0x8814.
Proof.
  split.
  - split; [reflexivity|]. split; [reflexivity|].
    destruct (new_internalFormat table0 _ _ _ _ _ _ _ _ _ _ _ new_100x50)
      as (_ & _ & _ & H).
    exact (H eq_refl).
  - destruct (new_Texture table0 7%nat (VNum gl.TEXTURE_2D) None (VNum 100)
                (VNum 50) VNull false (Some options_float) world0)
      as [[this w']|e] eqn:E; [|vm_compute in E; discriminate E].
    destruct (new_internalFormat table0 _ _ _ _ _ _ _ _ _ _ _ E)
      as (_ & Ht & Hi & _).
    exists this, w'. split; [reflexivity|]. split; [reflexivity|].
    split; [exact Ht|]. apply Hi. intros H. discriminate H.
Defined.

(** X8.  The fields hold [-1] before the first allocation, so a
    construction that asks for the size [(-1, -1, -1)] finds the size
    already recorded and allocates nothing: the texture holds no handle,
    no storage call is issued, [delete] on it does nothing, and the
    sampler that the construction created stays alive. *)
Theorem new_sentinel_size (table : value → option (value → value))
    (self : objref) (binding : value) (image : option Image) (is3D : bool)
    (options : option Options.t) (w : World) (internalFormat : value) :
  resolve_internalFormat table options = Normal internalFormat →
  ∃ (this : Texture) (w' : World),
    new_Texture table self binding image (VNum (-1)) (VNum (-1)) (VNum (-1))
                is3D options w = Normal (this, w')
    ∧ Texture.texture this = None
    ∧ storage_calls (emitted w w') = []
    ∧ delete this w' = (this, w')
    ∧ tracked (no_objects (fresh w)) (emitted w w')
      = {| next_name := S (fresh w); live_textures := ∅;
           live_samplers := {[ fresh w ]} |}.
Proof.
  intros Hi.
  destruct (new_Texture table self binding image (VNum (-1)) (VNum (-1))
              (VNum (-1)) is3D options w) as [[this w']|e] eqn:E.
  - pose proof E as E'. rewrite new_Texture_unfold, Hi in E'.
    unfold or_prop in E'. simpl in E'. injection E' as E'.
    set (this0 := initial self binding internalFormat is3D options
                          (Some (WebGLObject (fresh w)))) in E'.
    destruct (finish_spec image (VNum (-1)) (VNum (-1)) (VNum (-1)) this0
                (with_sampler options w)) as (w2 & E2 & Hc & Hf).
    rewrite resize_same in E2, Hc, Hf by done. cbn [fst snd] in *.
    rewrite E2 in E'. injection E' as <- <-.
    exists this0, w2. split; [done|]. split; [done|].
    pose proof (new_Texture_consistent _ _ _ _ _ _ _ _ _ _ _ _ E) as Hcon.
    apply consistent_emitted in Hcon as [_ Ht].
    assert (Hs : storage_calls (emitted w w2) = []).
    { rewrite (emitted_app w w2
                 (sampler_setup (default DUMMY_OBJECT options)
                                (Some (WebGLObject (fresh w)))
                  ++ data_calls image this0
                  ++ [ActiveTexture (gl.TEXTURE0 + 0);
                      BindTexture (Texture.binding this0) (Texture.texture this0);
                      BindSampler 0 (Texture.sampler this0)])).
      - rewrite !storage_calls_app, storage_calls_setup.
        destruct image; [|done]. unfold data_calls.
        by destruct (Texture.is3D this0), (Texture.generateMipmaps this0).
      - rewrite Hc. unfold with_sampler. cbn [calls]. by rewrite <- app_assoc. }
    split; [exact Hs|]. split; [done|].
    rewrite Ht. unfold objects_of. by rewrite Hf.
  - rewrite new_Texture_unfold, Hi in E. discriminate E.
Qed.

Lemma new_sentinel_size_witness :
  resolve_internalFormat table0 None = Normal (VNum gl.RGBA8)
  ∧ ∃ (this : Texture) (w' : World),
      new_Texture table0 7%nat (VNum gl.TEXTURE_2D) None (VNum (-1)) (VNum (-1))
                  (VNum (-1)) false None world0 = Normal (this, w')
      ∧ Texture.texture this = None
      ∧ delete this w' = (this, w').
Proof.
  split; [reflexivity|].
  destruct (new_sentinel_size table0 7%nat (VNum gl.TEXTURE_2D) None false None
              world0 (VNum gl.RGBA8) eq_refl)
    as (this & w' & Hn & Ht & _ & Hd & _).
  exists this, w'. split; [exact Hn|]. split; [exact Ht | exact Hd].
Defined.

(** ** Binding state *)





(** X10.  A construction that returns ends by binding the texture as it
    then stands, handle and sampler, to unit 0 on the binding target
    given to the constructor. *)
Theorem new_ends_bound (table : value → option (value → value))
    (self : objref) (binding : value) (image : option Image)
    (width height depth : value) (is3D : bool) (options : option Options.t)
    (w : World) (this : Texture) (w' : World) :
  new_Texture table self binding image width height depth is3D options w
  = Normal (this, w') →
  ∃ before : list glcall,
    emitted w w'
    = before ++ [ActiveTexture (gl.TEXTURE0 + 0);
                 BindTexture binding (Texture.texture this);
                 BindSampler 0 (Texture.sampler this)]
    ∧ Texture.sampler this = Some (WebGLObject (fresh w)).
Proof.
  intros H. pose proof (new_Texture_config _ _ _ _ _ _ _ _ _ _ _ _ H)
    as (ifmt' & _ & Hcfg).
  apply new_Texture_inv in H as (width' & height' & ifmt & _ & _ & _ & H).
  set (this0 := initial self binding ifmt is3D options
                        (Some (WebGLObject (fresh w)))) in H.
  destruct (finish_spec image width' height' depth this0 (with_sampler options w))
    as (w2 & E & Hc & _).
  rewrite E in H. injection H as <- <-.
  set (r := resize width' height' depth this0 (with_sampler options w)) in *.
  destruct (step_frame (this0, with_sampler options w)
              (Resize width' height' depth)) as (k & Hk & _ & Hs & _).
  cbn [step fst snd] in Hk, Hs. fold r in Hk, Hs.
  unfold config in Hcfg. simpl in Hcfg. injection Hcfg as _ Hb _ _ _ _ _ _ _ _.
  exists (sampler_setup (default DUMMY_OBJECT options)
                        (Some (WebGLObject (fresh w)))
          ++ k ++ data_calls image r.1).
  split; [|by rewrite Hs].
  apply emitted_app. rewrite Hc, Hk, Hb. unfold with_sampler. cbn [calls].
  by rewrite <- !app_assoc.
Qed.

Lemma new_ends_bound_witness :
  new_Texture table0 7%nat (VNum gl.TEXTURE_2D) None (VNum 100) (VNum 50)
              VNull false None world0 = Normal (sample2D, sample_world)
  ∧ ∃ before : list glcall,
      emitted world0 sample_world
      = before ++ [ActiveTexture (gl.TEXTURE0 + 0);
                   BindTexture (VNum gl.TEXTURE_2D) (Some (WebGLObject 1));
                   BindSampler 0 (Some (WebGLObject 0))].
Proof.
  split; [reflexivity|].
  destruct (new_ends_bound table0 _ _ _ _ _ _ _ _ _ _ _ new_100x50)
    as (before & H & _).
  exists before. exact H.
Defined.

(** ** Uploads *)

(** X11.  Whenever a constructed texture holds a handle, after any
    sequence of [resize], [data], [bind] and [delete], the upload that
    [data] issues for a buffer names the extent of the latest storage
    allocation, in two dimensions or in three as the allocation has. *)
Theorem upload_matches_storage (table : value → option (value → value))
    (self : objref) (binding : value) (image : option Image)
    (width height depth : value) (is3D : bool) (options : option Options.t)
    (w : World) (this : Texture) (w1 : World) (ms : list method)
    (buffer : Image) :
  new_Texture table self binding image width height depth is3D options w
  = Normal (this, w1) →
  let s := session ms (this, w1) in
  is_Some (Texture.texture s.1) →
  ∃ (allocation upload : glcall) (rest : list glcall),
    last (storage_calls (emitted w s.2)) = Some allocation
    ∧ emitted s.2 (data (Some buffer) s.1 s.2).2 = upload :: rest
    ∧ is_Some (call_size upload)
    ∧ call_size upload = call_size allocation.
Proof.
  intros H s Hs.
  apply new_Texture_consistent in H.
  apply (session_consistent w ms (this, w1)) in H. fold s in H.
  apply consistent_emitted in H as [H _]. specialize (H Hs).
  destruct (data_spec (Some buffer) s.1 s.2) as (w2 & -> & Hc & _).
  cbn [snd]. rewrite (emitted_app _ _ _ Hc), H.
  eexists _, _, _. split; [reflexivity|]. split; [reflexivity|].
  unfold storage_of. by destruct (Texture.is3D s.1).
Qed.

Lemma upload_matches_storage_witness :
  new_Texture table0 7%nat (VNum gl.TEXTURE_2D) None (VNum 100) (VNum 50)
              VNull false None world0 = Normal (sample2D, sample_world)
  ∧ is_Some (Texture.texture
               (session [Call (Resize (VNum 64) (VNum 32) VNull); Call (Bind 1)]
                        (sample2D, sample_world)).1)
  ∧ ∃ (allocation upload : glcall) (rest : list glcall),
      emitted
        (session [Call (Resize (VNum 64) (VNum 32) VNull); Call (Bind 1)]
                 (sample2D, sample_world)).2
        (data (Some image64x32)
           (session [Call (Resize (VNum 64) (VNum 32) VNull); Call (Bind 1)]
                    (sample2D, sample_world)).1
           (session [Call (Resize (VNum 64) (VNum 32) VNull); Call (Bind 1)]
                    (sample2D, sample_world)).2).2 = upload :: rest
      ∧ call_size upload = call_size allocation
      ∧ call_size allocation = Some (VNum 64, VNum 32, None).
Proof.
  assert (Hs : is_Some (Texture.texture
               (session [Call (Resize (VNum 64) (VNum 32) VNull); Call (Bind 1)]
                        (sample2D, sample_world)).1))
    by (eexists; reflexivity).
  split; [reflexivity|]. split; [exact Hs|].
  destruct (upload_matches_storage table0 _ _ _ _ _ _ _ _ _ _ _
              [Call (Resize (VNum 64) (VNum 32) VNull); Call (Bind 1)]
              image64x32 new_100x50 Hs)
    as (allocation & upload & rest & Ha & Hu & _ & He).
  exists allocation, upload, rest. split; [exact Hu|]. split; [exact He|].
  vm_compute in Ha. injection Ha as <-. reflexivity.
Defined.

(** ** After [delete] *)

(** X12.  [delete] does not end the life of the object: a [resize] to
    another size afterwards creates and allocates a texture again, which
    the object then holds, but no sampler comes back: the field stays
    [null], the [null] sampler is bound on unit 0 and no sampler is
    created. *)
Theorem resize_after_delete (this : Texture) (w : World) (h : handle)
    (width height depth : value) :
  Texture.texture this = Some h →
  ¬ has_size this width height depth →
  let d := delete this w in
  let r := resize width height depth d.1 d.2 in
  Texture.texture r.1 = Some (WebGLObject (fresh w))
  ∧ Texture.sampler r.1 = None
  ∧ BindSampler 0 None ∈ emitted d.2 r.2
  ∧ sampler_calls (emitted d.2 r.2) = []
  ∧ storage_calls (emitted d.2 r.2) = [storage_of r.1].
Proof.
  intros Ht Hne d r. subst r d. unfold delete. rewrite Ht. cbn [fst snd].
  set (t := Texture.set_sampler None (Texture.set_texture None this)).
  set (w1 := gl_call _ (gl_call _ w)).
  assert (Hn : ¬ has_size t width height depth) by exact Hne.
  destruct (resize_differs t w1 width height depth Hn) as (w2 & -> & Hc & _).
  cbn [fst snd]. rewrite (emitted_app _ _ _ Hc).
  split; [done|]. split; [done|].
  split; [unfold resize_calls; apply elem_of_app; left; repeat constructor|].
  split; [apply sampler_calls_resize|].
  rewrite storage_calls_resize. subst t.
  by destruct this as [? ? ? ? ? ? ? ? ? []].
Qed.

Lemma resize_after_delete_witness :
  Texture.texture sample2D = Some (WebGLObject 1)
  ∧ ¬ has_size sample2D (VNum 8) (VNum 8) VNull
  ∧ Texture.texture
      (resize (VNum 8) (VNum 8) VNull (delete sample2D sample_world).1
              (delete sample2D sample_world).2).1 = Some (WebGLObject 2)
  ∧ Texture.sampler
      (resize (VNum 8) (VNum 8) VNull (delete sample2D sample_world).1
              (delete sample2D sample_world).2).1 = None.
Proof.
  assert (Hn : ¬ has_size sample2D (VNum 8) (VNum 8) VNull)
    by (intros [E _]; discriminate E).
  split; [reflexivity|]. split; [exact Hn|].
  destruct (resize_after_delete sample2D sample_world (WebGLObject 1)
              (VNum 8) (VNum 8) VNull eq_refl Hn) as (H1 & H2 & _).
  split; [exact H1 | exact H2].
Defined.

(** ** Level counts outside the positive sizes *)

(** X13.  With mipmaps, when the largest of the sizes that count (width
    and height, and depth on a 3D-shaped texture) is [0] the level count
    passed to the storage allocation is [-Infinity], and when it is
    negative the level count is [NaN]: the logarithm is taken of the
    sizes as they come. *)
Theorem resize_levels_not_positive (this : Texture) (w : World) (x y z : Z)
    (depth : value) :
  Texture.generateMipmaps this = true →
  or_else depth (VNum 0) = VNum z →
  ¬ has_size this (VNum x) (VNum y) depth →
  let m := if Texture.is3D this then Z.max (Z.max x y) z else Z.max x y in
  m ≤ 0 →
  storage_calls (emitted w (resize (VNum x) (VNum y) depth this w).2)
  = [if Texture.is3D this
     then TexStorage3D (Texture.binding this)
            (if m =? 0 then NegInfinity else NaN)
            (Texture.internalFormat this) (VNum x) (VNum y) (VNum z)
     else TexStorage2D (Texture.binding this)
            (if m =? 0 then NegInfinity else NaN)
            (Texture.internalFormat this) (VNum x) (VNum y)].
Proof.
  intros Hg Hz Hne m Hm.
  destruct (resize_differs this w _ _ _ Hne) as (w' & -> & Hc & _).
  cbn [snd]. rewrite (emitted_app _ _ _ Hc), storage_calls_resize.
  unfold levels, resized. rewrite Hz. subst m.
  destruct this as [self binding texture wd ht dp format type ifmt is3D
                    sampler flipY baseLevel maxLevel mip].
  simpl in *. subst mip.
  destruct is3D; simpl;
    (rewrite (proj2 (Z.ltb_ge 0 _)) by lia);
    by destruct (_ =? 0).
Qed.

Lemma resize_levels_not_positive_witness :
  Texture.generateMipmaps sample2D = true
  ∧ or_else VUndefined (VNum 0) = VNum 0
  ∧ ¬ has_size sample2D (VNum 0) (VNum 0) VUndefined
  ∧ Z.max 0 0 ≤ 0
  ∧ storage_calls
      (emitted sample_world
         (resize (VNum 0) (VNum 0) VUndefined sample2D sample_world).2)
    = [TexStorage2D (VNum gl.TEXTURE_2D) NegInfinity (VNum gl.RGBA8)
                    (VNum 0) (VNum 0)].
Proof.
  assert (Hn : ¬ has_size sample2D (VNum 0) (VNum 0) VUndefined)
    by (intros [E _]; discriminate E).
  assert (Hm : Z.max 0 0 ≤ 0) by lia.
  split; [reflexivity|]. split; [reflexivity|]. split; [exact Hn|].
  split; [exact Hm|].
  exact (resize_levels_not_positive sample2D sample_world 0 0 0 VUndefined
           eq_refl eq_refl Hn Hm).
Defined.

(** ** Textures without mipmaps *)

Lemma invoke_single_level (this : Texture) (w : World) (m : method) :
  Texture.generateMipmaps this = false →
  ∃ k, calls (invoke (this, w) m).2 = calls w ++ k
       ∧ Forall (λ c, single_level c = true) k.
Proof.
  intros Hg.
  destruct m as [[width height depth|d|unit]|]; cbn [invoke step fst snd].
  - destruct (decide (has_size this width height depth)) as [H|H].
    + rewrite resize_same by done. exists []. by rewrite app_nil_r.
    + destruct (resize_differs this w width height depth H) as (w' & -> & Hc & _).
      eexists. split; [exact Hc|]. unfold resize_calls.
      rewrite (resize_levels_disabled this w width height depth Hg).
      destruct (strict_neq (Texture.baseLevel this) VNull),
               (strict_neq (Texture.maxLevel this) VNull),
               (Texture.is3D this); repeat constructor.
  - destruct (data_spec d this w) as (w' & -> & Hc & _).
    eexists. split; [exact Hc|]. destruct d; [|constructor].
    unfold data_calls. rewrite Hg.
    destruct (Texture.is3D this); repeat constructor.
  - destruct (bind_spec unit this w) as (w' & -> & Hc & _).
    eexists. split; [exact Hc|]. repeat constructor.
  - unfold delete. destruct (Texture.texture this).
    + eexists. split; [simpl; by rewrite <- app_assoc|]. repeat constructor.
    + exists []. split; [by rewrite app_nil_r|constructor].
Qed.

Lemma session_single_level (ms : list method) (s : Texture * World) :
  Texture.generateMipmaps s.1 = false →
  ∃ k, calls (session ms s).2 = calls s.2 ++ k
       ∧ Forall (λ c, single_level c = true) k.
Proof.
  revert s. induction ms as [|m ms IH]; intros [this w] Hg.
  - exists []. split; [by rewrite app_nil_r|constructor].
  - destruct (invoke_single_level this w m Hg) as (k1 & Hc1 & Hk1).
    destruct (IH (invoke (this, w) m)) as (k2 & Hc2 & Hk2).
    { pose proof (invoke_config (this, w) m) as Hcfg.
      unfold config in Hcfg. injection Hcfg as _ _ _ _ _ _ _ _ _ ->.
      exact Hg. }
    exists (k1 ++ k2). split; [|by apply Forall_app].
    unfold session in *. simpl. cbn [snd] in Hc1. by rewrite Hc2, Hc1, app_assoc.
Qed.

(** X14.  A texture constructed with [generateMipmaps: false], or with a
    minification filter that samples no mipmaps, never has a mipmap
    chain: through its construction and any sequence of [resize],
    [data], [bind] and [delete], every storage allocation has one level
    and no mipmap generation is issued. *)
Theorem no_mipmaps_ever (table : value → option (value → value))
    (self : objref) (binding : value) (image : option Image)
    (width height depth : value) (is3D : bool) (options : option Options.t)
    (w : World) (this : Texture) (w1 : World) (ms : list method) :
  new_Texture table self binding image width height depth is3D options w
  = Normal (this, w1) →
  Options.generateMipmaps (default DUMMY_OBJECT options) = VBool false
  ∨ mipmap_filter (resolved_minFilter options) = false →
  Forall (λ c, single_level c = true)
         (emitted w (session ms (this, w1)).2).
Proof.
  intros H Ho.
  apply new_Texture_inv in H as (width' & height' & ifmt & _ & _ & _ & H).
  rewrite finish_run, run_session in H.
  set (this0 := initial self binding ifmt is3D options
                        (Some (WebGLObject (fresh w)))) in H.
  assert (Hg : Texture.generateMipmaps this0 = false).
  { simpl. destruct Ho as [-> | ->]; [done|]. apply andb_false_r. }
  rewrite <- H, <- session_app.
  destruct (session_single_level
              ((Call <$> [Resize width' height' depth; Data image; Bind 0]) ++ ms)
              (this0, with_sampler options w) Hg) as (k & Hc & Hk).
  cbn [snd] in Hc. unfold with_sampler in Hc at 2. cbn [calls] in Hc.
  rewrite <- app_assoc in Hc. rewrite (emitted_app _ _ _ Hc).
  apply Forall_app. split; [|exact Hk].
  unfold sampler_setup.
  destruct (strict_neq (defined_or (Options.minLOD _) VNull) VNull),
           (strict_neq (defined_or (Options.maxLOD _) VNull) VNull);
    repeat constructor.
Qed.

Lemma no_mipmaps_ever_witness :
  ∃ this w1,
    new_Texture table0 7%nat (VNum gl.TEXTURE_2D) (Some image64x32)
                VUndefined VUndefined VNull false (Some options_no_mipmaps)
                world0 = Normal (this, w1)
    ∧ Options.generateMipmaps (default DUMMY_OBJECT (Some options_no_mipmaps))
      = VBool false
    ∧ Forall (λ c, single_level c = true)
        (emitted world0
           (session [Call (Resize (VNum 256) (VNum 256) VNull);
                     Call (Data (Some image64x32))] (this, w1)).2).
Proof.
  destruct (new_Texture table0 7%nat (VNum gl.TEXTURE_2D) (Some image64x32)
              VUndefined VUndefined VNull false (Some options_no_mipmaps) world0)
    as [[this w1]|e] eqn:E; [|vm_compute in E; discriminate E].
  exists this, w1. split; [reflexivity|]. split; [reflexivity|].
  exact (no_mipmaps_ever table0 _ _ _ _ _ _ _ _ _ _ _
           [Call (Resize (VNum 256) (VNum 256) VNull);
            Call (Data (Some image64x32))] E (or_introl eq_refl)).
Defined.
